(** * NanoPlot: the plot-selection and report-assembly pipeline

    A shallow embedding of [nanoplot/NanoPlot.py] (functions [main],
    [make_stats], [make_plots] and [make_report]) and the properties of
    its orchestration logic.

    The program only ever emits output (log records, console lines, files,
    calls into the plotting and statistics libraries), so it is modelled in
    a trace-and-exception monad: a computation is the list of events it
    produced together with either the exception it raised or its value.
    The libraries the script drives (nanoplotter, nanomath, nanoget, numpy,
    pickle, [nanoplot.utils], [nanoplot.filteroptions]) are parameters,
    gathered in the record [Env]. *)

From Stdlib Require Import ZArith Ascii String.
From Stdlib Require QArith_base.
From stdpp Require Import base decidable option list strings gmap pretty.

Set Default Proof Using "Type".

(** ** Python values *)

Definition float := QArith_base.Q.

#[global] Instance float_eq_dec : EqDecision float.
Proof. solve_decision. Defined.

(** A cell of a pandas DataFrame. Numeric payloads are never inspected by
    the script; they are carried to the collaborators as they are. *)
Inductive Cell :=
| CInt (z : Z)
| CFloat (q : float)
| CBool (b : bool)
| CStr (s : string)
| CNaN.

#[global] Instance Cell_eq_dec : EqDecision Cell.
Proof. solve_decision. Defined.

Definition Series := list Cell.

(** A DataFrame: its column index and its rows. A cell that a row does not
    carry reads as NaN, as in pandas. *)
Record DataFrame := mkDataFrame {
  columns : list string;
  rows : list (gmap string Cell)
}.

Definition cell (c : string) (r : gmap string Cell) : Cell := default CNaN (r !! c).

(** [datadf[c]] for a present column. *)
Definition column (df : DataFrame) (c : string) : Series := cell c <$> rows df.

(** [c in datadf] *)
Definition contains (df : DataFrame) (c : string) : bool := bool_decide (c ∈ columns df).

(** [len(datadf)] *)
Definition len (df : DataFrame) : nat := length (rows df).

Definition is_bool (c : Cell) : bool := match c with CBool _ => true | _ => false end.
Definition is_true (c : Cell) : bool := match c with CBool true => true | _ => false end.

(** Python's [==] on two cells: NaN equals nothing, itself included. Cells
    of one column share a dtype, so coincidences across types
    ([1 == 1.0 == True]) are left out. *)
Definition cell_eqb (a b : Cell) : bool :=
  match a, b with
  | CNaN, _ | _, CNaN => false
  | _, _ => bool_decide (a = b)
  end.

(** [series == value] *)
Definition series_eq (s : Series) (v : Cell) : Series := (λ c, CBool (cell_eqb c v)) <$> s.

(** Row selection by a boolean mask. *)
Fixpoint select {A} (mask : Series) (l : list A) : list A :=
  match mask, l with
  | m :: mask', x :: l' => if is_true m then x :: select mask' l' else select mask' l'
  | _, _ => []
  end.

(** [Series.unique()]: the distinct values in order of first appearance;
    missing values count as one value. *)
Fixpoint unique_from (seen : list Cell) (l : Series) : list Cell :=
  match l with
  | [] => []
  | x :: l' =>
      if bool_decide (x ∈ seen) then unique_from seen l'
      else x :: unique_from (x :: seen) l'
  end.

Definition unique (l : Series) : list Cell := unique_from [] l.

(** ** Strings and paths *)

Definition dquote : string := String (Ascii.ascii_of_nat 34) EmptyString.
Definition newline : string := String (Ascii.ascii_of_nat 10) EmptyString.

Fixpoint startswith (p s : string) : bool :=
  match p, s with
  | EmptyString, _ => true
  | String a p', String b s' => bool_decide (a = b) && startswith p' s'
  | String _ _, EmptyString => false
  end.

Fixpoint endswith_sep (s : string) : bool :=
  match s with
  | EmptyString => false
  | String a EmptyString => bool_decide (a = ("/" : ascii))
  | String _ s' => endswith_sep s'
  end.

(** [os.path.join(a, b)] (posixpath) *)
Definition path_join (a b : string) : string :=
  if startswith "/" b then b
  else if bool_decide (a = EmptyString) || endswith_sep a then a +:+ b
  else a +:+ "/" +:+ b.

(** [s.replace(' ', '_')] *)
Fixpoint replace_space (s : string) : string :=
  match s with
  | EmptyString => EmptyString
  | String a s' => String (if bool_decide (a = (" " : ascii)) then ("_" : ascii) else a) (replace_space s')
  end.

(** [sep.join(l)] *)
Fixpoint join (sep : string) (l : list string) : string :=
  match l with
  | [] => EmptyString
  | [x] => x
  | x :: l' => x +:+ sep +:+ join sep l'
  end.

(** [l.count(x)] *)
Definition count_str (x : string) (l : list string) : nat :=
  length (filter (λ y, y = x) l).

(** ** Exceptions *)

(** The exceptions of the run. The script's own lookups raise [KeyError],
    [IndexError] and [TypeError]; a mask that is not boolean is outside
    the model ([ValueError], see [getitem_mask]); a failure inside a
    collaborator, the file system included, is [External]. *)
Inductive Exn :=
| KeyError (key : string)
| IndexError
| TypeError
| ValueError
| External (what : string).

(** ** The data handed around *)

(** A Plot object of nanoplotter: a title, the path of the image, and the
    markup its [encode()] method returns when it returns. Whether the call
    returns is up to the environment: see [encode] in [Env]. *)
Module Plot.
Record t := mk { title : string; path : string; encode : string }.
End Plot.

(** The namespace [get_args] returns. *)
Module Args.
Record t := mk {
  threads : Z; verbose : bool; store : bool; raw : bool;
  outdir : string; prefix : string;
  maxlength : option Z; minlength : option Z; drop_outliers : bool;
  downsample : option Z; loglength : bool; percentqual : bool;
  alength : bool; minqual : option Z; runtime_until : option Z;
  readtype : string; barcoded : bool;
  color : string; format : string; plots : list string;
  listcolors : bool; no_N50 : bool; N50 : bool;
  title : option string; font_scale : float; dpi : Z;
  fastq : option (list string); fasta : option (list string);
  fastq_rich : option (list string); fastq_minimal : option (list string);
  summary : option (list string); bam : option (list string);
  ubam : option (list string); cram : option (list string);
  pickle : option string
}.
End Args.

(** The settings dictionary, [vars(args)]. The keys the script rewrites
    ([format], [title], [path], [statsfile]) and the keys the filtering stage
    adds ([filtered], [lengths_pointer], [logBool], absent until then) are
    fields of their own; every other key is read from the namespace. *)
Module Settings.
Record t := mk {
  args : Args.t;
  format : string;
  title : option string;
  path : string;
  statsfile : list string;
  filtered : option bool;
  lengths_pointer : option string;
  logBool : option bool
}.

Definition outdir (s : t) := Args.outdir (args s).
Definition prefix (s : t) := Args.prefix (args s).
Definition barcoded (s : t) := Args.barcoded (args s).
Definition N50 (s : t) := Args.N50 (args s).
Definition font_scale (s : t) := Args.font_scale (args s).
Definition dpi (s : t) := Args.dpi (args s).
Definition color (s : t) := Args.color (args s).
Definition plots (s : t) := Args.plots (args s).

Definition set_path (p : string) (s : t) : t :=
  mk (args s) (format s) (title s) p (statsfile s) (filtered s) (lengths_pointer s) (logBool s).
Definition set_title (x : option string) (s : t) : t :=
  mk (args s) (format s) x (path s) (statsfile s) (filtered s) (lengths_pointer s) (logBool s).
Definition set_statsfile (l : list string) (s : t) : t :=
  mk (args s) (format s) (title s) (path s) l (filtered s) (lengths_pointer s) (logBool s).
End Settings.

(** Modelled from the spec: [filter_and_transform_data] of
    [nanoplot/filteroptions.py] is not among the sources. Section 4.5 has the
    filtering stage return the transformed dataset, the flag that tells
    whether anything was filtered and the name of the length column; the
    script reads them back as the keys [filtered] and [lengths_pointer], and
    reads the log-scale flag as [logBool], which nothing else sets. *)
Record FilterOutcome := mkFilterOutcome {
  fo_filtered : bool;
  fo_lengths_pointer : string;
  fo_logBool : bool
}.

Definition apply_outcome (fo : FilterOutcome) (s : Settings.t) : Settings.t :=
  Settings.mk (Settings.args s) (Settings.format s) (Settings.title s) (Settings.path s)
    (Settings.statsfile s) (Some (fo_filtered fo)) (Some (fo_lengths_pointer fo))
    (Some (fo_logBool fo)).

(** ** Calls into nanoplotter

    One record per plotting function, holding the keyword arguments the
    script passes; an argument the script leaves out is [None]. *)

Inductive StatFn := pearsonr.

Module length_plots.
Record args := mk {
  array : Series; name : string; path : string; n50 : option Cell;
  color : string; figformat : string; title : option string
}.
End length_plots.

Module scatter.
Record args := mk {
  x : Series; y : Series; names : list string; path : string;
  color : string; figformat : string; plots : list (string * nat);
  stat : option StatFn; log : option bool;
  minvalx : option Cell; minvaly : option Cell;
  title : option string; plot_settings : float
}.
End scatter.

Module spatial_heatmap.
Record args := mk {
  array : Series; title : option string; path : string;
  color : string; figformat : string
}.
End spatial_heatmap.

Module time_plots.
Record args := mk {
  df : DataFrame; path : string; color : string; figformat : string;
  title : option string; log_length : bool; plot_settings : float
}.
End time_plots.

Inductive Call :=
| Length_plots (a : length_plots.args)
| Scatter (a : scatter.args)
| Spatial_heatmap (a : spatial_heatmap.args)
| Time_plots (a : time_plots.args).

(** ** Events *)

(** The calls the script makes into its collaborators. [File_open] is the
    builtin [open] of a file for writing, which creates the file or empties
    it; the opening of the snapshot for reading is part of [Pickle_load]. *)
Inductive ExtCall :=
| Make_output_dir (dir : string)
| Init_logs (a : Args.t)
| Check_valid_format (fmt : string)
| Pickle_load (file : string)
| Get_input (source : string) (files : list string) (threads : Z)
    (readtype : string) (combine : string) (barcoded : bool)
| Pickle_dump (obj : DataFrame) (file : string)
| To_csv (df : DataFrame) (file : string)
| Write_stats (datadfs : list DataFrame) (outputfile : string) (names : option (list Cell))
| Filter_and_transform_data (df : DataFrame) (settings : Settings.t)
| Plot_settings (font_scale : float) (dpi : Z)
| Check_valid_color (color : string)
| Render (c : Call)
| Stats2html (statsfile : string)
| Encode (plot : Plot.t)
| File_open (file : string) (mode : string).

(** What a run does that can be observed: its log records, what it writes
    to the standard streams, the calls into its collaborators, and
    [File_write], the call of [write] on a file the script has opened. *)
Inductive Event :=
| Logging_info (msg : string)
| Logging_error (e : Exn)
| Stderr_write (s : string)
| Stdout_print (s : string)
| File_write (file : string) (content : string)
| Called (c : ExtCall).

(** ** The collaborators

    Each returns its value or the message of the exception it raised. *)
Record Env := mkEnv {
  (* nanoplot.utils *)
  make_output_dir : string → string + ();
  init_logs : Args.t → string + ();
  stats2html : string → string + string;
  html_head : string;
  (* nanoplotter *)
  check_valid_format : string → string + string;
  check_valid_color : string → string + string;
  plot_settings : float → Z → string + ();
  nanoplotter : Call → string + list Plot.t;
  (* nanomath *)
  get_N50 : Series → string + Cell;
  write_stats : list DataFrame → string → option (list Cell) → string + ();
  (* numpy *)
  np_sort : Series → Series;
  np_percentile : Series → Z → string + Cell;
  (* nanoget, pickle, pandas *)
  get_input : string → list string → Z → string → string → bool → string + DataFrame;
  pickle_load : string → string + DataFrame;
  pickle_dump : DataFrame → string → string + ();
  to_csv : DataFrame → string → string + ();
  (* nanoplot.filteroptions: returns the transformed dataset and sets the
     keys filtered, lengths_pointer and logBool *)
  filter_and_transform_data : DataFrame → Settings.t → string + (DataFrame * FilterOutcome);
  (* str() of a float *)
  float_repr : float → string;
  (* plot.encode(): returns the markup of the plot, or raises *)
  encode : Plot.t → string + ();
  (* open(file, mode) for writing; file.write(content) and the closing *)
  file_open : string → string → string + ();
  file_write : string → string → string + ()
}.

(** ** The trace monad *)

Definition M (A : Type) : Type := (list Event * (Exn + A))%type.

#[global] Instance M_ret : MRet M := λ A a, ([], inr a).

#[global] Instance M_bind : MBind M := λ A B f m,
  match m.2 with
  | inl e => (m.1, inl e)
  | inr a => let r := f a in (m.1 ++ r.1, r.2)
  end.

Definition raise {A} (e : Exn) : M A := ([], inl e).

Definition emit (ev : Event) : M () := ([ev], inr ()).

(** The value or exception of a collaborator. *)
Definition lift {A} (r : string + A) : M A :=
  match r with
  | inl msg => raise (External msg)
  | inr a => mret a
  end.

(** A call into a collaborator: the call is recorded, then it returns or
    raises. *)
Definition extern {A} (c : ExtCall) (r : string + A) : M A :=
  emit (Called c);; lift r.

(** [try: m except Exception as e: h e] *)
Definition try_except {A} (m : M A) (h : Exn → M A) : M A :=
  match m.2 with
  | inl e => let r := h e in (m.1 ++ r.1, r.2)
  | inr _ => m
  end.

(** [for x in l: acc = body x acc] *)
Fixpoint for_each {A S} (l : list A) (body : A → S → M S) (acc : S) : M S :=
  match l with
  | [] => mret acc
  | x :: l' => acc' ← body x acc; for_each l' body acc'
  end.

(** [[f x for x in l]] *)
Fixpoint comprehension {A B} (f : A → M B) (l : list A) : M (list B) :=
  match l with
  | [] => mret []
  | x :: l' => y ← f x; ys ← comprehension f l'; mret (y :: ys)
  end.

(** ** DataFrame access *)

(** [datadf[c]]: a KeyError when the column is absent. *)
Definition getitem (df : DataFrame) (c : string) : M Series :=
  if contains df c then mret (column df c) else raise (KeyError c).

(** [datadf[mask]] for a boolean mask: the rows where the mask is true.
    The masks of the script are the comparison of the column [barcode] with
    a label, which is boolean, and the column [length_filter], which the
    filtering stage fills with booleans. pandas reads a key that is not
    boolean as a list of column labels, and decides by the type the column
    declares, which an empty column declares freely: other keys are outside
    this model, which raises on them, and a statement that depends on the
    outcome of the selection assumes a boolean mask on a dataset with
    rows. *)
Definition getitem_mask (df : DataFrame) (mask : Series) : M DataFrame :=
  if forallb is_bool mask
  then mret (mkDataFrame (columns df) (select mask (rows df)))
  else raise ValueError.

(** [datadf[datadf["length_filter"]]] *)
Definition length_filtered (datadf : DataFrame) : M DataFrame :=
  mask ← getitem datadf "length_filter";
  getitem_mask datadf mask.

(** [datadf[datadf["barcode"] == b]] *)
Definition barcode_frame (datadf : DataFrame) (b : Cell) : M DataFrame :=
  col ← getitem datadf "barcode";
  getitem_mask datadf (series_eq col b).

(** [settings[key]] for the keys the filtering stage adds. *)
Definition setting {A} (key : string) (v : option A) : M A :=
  match v with
  | Some a => mret a
  | None => raise (KeyError key)
  end.

(** [l[i]] *)
Definition index {A} (l : list A) (i : nat) : M A :=
  match l !! i with
  | Some a => mret a
  | None => raise IndexError
  end.

(** ** The script *)

Definition quoted (s : string) : string := dquote +:+ s +:+ dquote.

(** [str(c)], as [format] renders a barcode label. *)
Definition str_cell (float_repr : float → string) (c : Cell) : string :=
  match c with
  | CStr s => s
  | CInt z => pretty z
  | CFloat q => float_repr q
  | CBool true => "True"
  | CBool false => "False"
  | CNaN => "nan"
  end.

(** [prefix + barc]: only a string can be appended to a string. *)
Definition as_str (c : Cell) : M string :=
  match c with
  | CStr s => mret s
  | _ => raise TypeError
  end.

(** Truth value of an optional list of files and of an optional file name. *)
Definition given {A} (s : option (list A)) : bool :=
  match s with
  | Some (_ :: _) => true
  | _ => false
  end.

Definition given_name (s : option string) : option string :=
  match s with
  | Some EmptyString => None
  | _ => s
  end.

(** The fixed message of the handler, one [print] per line. *)
Definition crash_message : list string :=
  [ newline +:+ newline +:+ newline +:+ "If you read this then NanoPlot has crashed :-(";
    "Please try updating NanoPlot and see if that helps..." +:+ newline;
    "If not, please report this issue at https://github.com/wdecoster/NanoPlot/issues";
    "If you could include the log file that would be really helpful.";
    "Thanks!" +:+ newline +:+ newline +:+ newline ].

(** The lines of the report. *)
Definition toc_stats_prior : string :=
  "<p><strong><a href=" +:+ quoted "#stats0" +:+ ">Summary Statistics prior to filtering</a></strong></p>".
Definition toc_stats_after : string :=
  "<p><strong><a href=" +:+ quoted "#stats1" +:+ ">Summary Statistics after filtering</a></strong></p>".
Definition toc_stats_single : string :=
  "<p><strong><a href=" +:+ quoted "#stats0" +:+ ">Summary Statistics</a></strong></p>".
Definition toc_plots : string :=
  "<p><strong><a href=" +:+ quoted "#plots" +:+ ">Plots</a></strong></p>".

Definition div_toc : string := "<div class=" +:+ quoted "panel panelC" +:+ ">".
Definition div_report : string :=
  "<div class=" +:+ quoted "panel panelM" +:+ "> <h1>NanoPlot report</h1>".
Definition h2_stats_prior : string :=
  "<h2 id=" +:+ quoted "stats0" +:+ ">Summary statistics prior to filtering</h2>".
Definition h2_stats_after : string :=
  "<h2 id=" +:+ quoted "stats1" +:+ ">Summary statistics after filtering</h2>".
Definition h2_stats_single : string :=
  "<h2 id=" +:+ quoted "stats0" +:+ ">Summary statistics</h2>".
Definition h2_plots : string := "<h2 id=" +:+ quoted "plots" +:+ ">Plots</h2>".

(** The anchor of a plot: [p.title.replace(' ', '_')]. *)
Definition anchor (p : Plot.t) : string := replace_space (Plot.title p).

Definition toc_entry (p : Plot.t) : string :=
  "<p style=" +:+ quoted "margin-left:20px" +:+ "><a href=" +:+ dquote +:+ "#" +:+
  anchor p +:+ dquote +:+ ">" +:+ Plot.title p +:+ "</a></p>".

Definition plot_heading (plot : Plot.t) : string :=
  newline +:+ "<h3 id=" +:+ dquote +:+ anchor plot +:+ dquote +:+ ">" +:+
  Plot.title plot +:+ "</h3>" +:+ newline +:+ Plot.encode plot.

Definition plot_spacer : string :=
  newline +:+ "<br>" +:+ newline +:+ "<br>" +:+ newline +:+ "<br>" +:+ newline +:+ "<br>".

Section Script.
Context (E : Env).

Definition render (c : Call) : M (list Plot.t) :=
  extern (Render c) (nanoplotter E c).

Definition make_stats (datadf : DataFrame) (settings : Settings.t) (suffix : string)
  : M string :=
  let statsfile := Settings.path settings +:+ "NanoStats" +:+ suffix +:+ ".txt" in
  extern (Write_stats [datadf] statsfile None) (write_stats E [datadf] statsfile None);;
  emit (Logging_info "Calculated statistics");;
  if Settings.barcoded settings then
    col ← getitem datadf "barcode";
    let barcodes := unique col in
    let statsfile := Settings.path settings +:+ "NanoStats_barcoded.txt" in
    datadfs ← comprehension (barcode_frame datadf) barcodes;
    extern (Write_stats datadfs statsfile (Some barcodes))
           (write_stats E datadfs statsfile (Some barcodes));;
    mret statsfile
  else mret statsfile.

Definition make_plots (datadf : DataFrame) (settings : Settings.t) : M (list Plot.t) :=
  let plot_settings_ := Settings.font_scale settings in
  extern (Plot_settings plot_settings_ (Settings.dpi settings))
         (plot_settings E plot_settings_ (Settings.dpi settings));;
  color ← extern (Check_valid_color (Settings.color settings))
                 (check_valid_color E (Settings.color settings));
  let plotdict :=
    (λ type, (type, count_str type (Settings.plots settings))) <$>
    ["kde"; "hex"; "dot"; "pauvre"] in
  let plots : list Plot.t := [] in
  n50 ← (if Settings.N50 settings then
           lengths ← getitem datadf "lengths";
           n ← lift (get_N50 E (np_sort E lengths));
           mret (Some n)
         else mret None);
  new ← (flt ← length_filtered datadf;
         array ← getitem flt "lengths";
         render (Length_plots
           (length_plots.mk array "Read length" (Settings.path settings) n50 color
              (Settings.format settings) (Settings.title settings))));
  let plots := plots ++ new in
  emit (Logging_info "Created length plots");;
  plots ← (if contains datadf "quals" then
             new ← (flt ← length_filtered datadf;
                    lp ← setting "lengths_pointer" (Settings.lengths_pointer settings);
                    x ← getitem flt lp;
                    flt ← length_filtered datadf;
                    y ← getitem flt "quals";
                    log ← setting "logBool" (Settings.logBool settings);
                    render (Scatter
                      (scatter.mk x y ["Read lengths"; "Average read quality"]
                         (Settings.path settings +:+ "LengthvsQualityScatterPlot")
                         color (Settings.format settings) plotdict None (Some log)
                         None None (Settings.title settings) plot_settings_)));
             emit (Logging_info "Created LengthvsQual plot");;
             mret (plots ++ new)
           else mret plots);
  plots ← (if contains datadf "channelIDs" then
             new ← (array ← getitem datadf "channelIDs";
                    render (Spatial_heatmap
                      (spatial_heatmap.mk array (Settings.title settings)
                         (Settings.path settings +:+ "ActivityMap_ReadsPerChannel")
                         "Greens" (Settings.format settings))));
             emit (Logging_info "Created spatialheatmap for succesfull basecalls.");;
             mret (plots ++ new)
           else mret plots);
  plots ← (if contains datadf "start_time" then
             new ← (log ← setting "logBool" (Settings.logBool settings);
                    render (Time_plots
                      (time_plots.mk datadf (Settings.path settings) color
                         (Settings.format settings) (Settings.title settings)
                         log plot_settings_)));
             emit (Logging_info "Created timeplots.");;
             mret (plots ++ new)
           else mret plots);
  plots ← (if contains datadf "aligned_lengths" && contains datadf "lengths" then
             new ← (flt ← length_filtered datadf;
                    x ← getitem flt "aligned_lengths";
                    flt ← length_filtered datadf;
                    y ← getitem flt "lengths";
                    render (Scatter
                      (scatter.mk x y ["Aligned read lengths"; "Sequenced read length"]
                         (Settings.path settings +:+ "AlignedReadlengthvsSequencedReadLength")
                         color (Settings.format settings) plotdict None None
                         None None (Settings.title settings) plot_settings_)));
             emit (Logging_info "Created AlignedLength vs Length plot.");;
             mret (plots ++ new)
           else mret plots);
  plots ← (if contains datadf "mapQ" && contains datadf "quals" then
             new ← (x ← getitem datadf "mapQ";
                    y ← getitem datadf "quals";
                    render (Scatter
                      (scatter.mk x y ["Read mapping quality"; "Average basecall quality"]
                         (Settings.path settings +:+ "MappingQualityvsAverageBaseQuality")
                         color (Settings.format settings) plotdict None None
                         None None (Settings.title settings) plot_settings_)));
             let plots := plots ++ new in
             emit (Logging_info "Created MapQvsBaseQ plot.");;
             new ← (flt ← length_filtered datadf;
                    lp ← setting "lengths_pointer" (Settings.lengths_pointer settings);
                    x ← getitem flt lp;
                    flt ← length_filtered datadf;
                    y ← getitem flt "mapQ";
                    log ← setting "logBool" (Settings.logBool settings);
                    render (Scatter
                      (scatter.mk x y ["Read length"; "Read mapping quality"]
                         (Settings.path settings +:+ "MappingQualityvsReadLength")
                         color (Settings.format settings) plotdict None (Some log)
                         None None (Settings.title settings) plot_settings_)));
             emit (Logging_info "Created Mapping quality vs read length plot.");;
             mret (plots ++ new)
           else mret plots);
  plots ← (if contains datadf "percentIdentity" then
             pid ← getitem datadf "percentIdentity";
             minPID ← lift (np_percentile E pid 1);
             plots ← (if contains datadf "aligned_quals" then
                        new ← (x ← getitem datadf "percentIdentity";
                               y ← getitem datadf "aligned_quals";
                               render (Scatter
                                 (scatter.mk x y ["Percent identity"; "Average Base Quality"]
                                    (Settings.path settings +:+
                                     "PercentIdentityvsAverageBaseQuality")
                                    color (Settings.format settings) plotdict
                                    (Some pearsonr) None (Some minPID) None
                                    (Settings.title settings) plot_settings_)));
                        emit (Logging_info "Created Percent ID vs Base quality plot.");;
                        mret (plots ++ new)
                      else mret plots);
             new ← (flt ← length_filtered datadf;
                    lp ← setting "lengths_pointer" (Settings.lengths_pointer settings);
                    x ← getitem flt lp;
                    flt ← length_filtered datadf;
                    y ← getitem flt "percentIdentity";
                    log ← setting "logBool" (Settings.logBool settings);
                    render (Scatter
                      (scatter.mk x y ["Aligned read length"; "Percent identity"]
                         (Settings.path settings +:+ "PercentIdentityvsAlignedReadLength")
                         color (Settings.format settings) plotdict
                         (Some pearsonr) (Some log) None (Some minPID)
                         (Settings.title settings) plot_settings_)));
             emit (Logging_info "Created Percent ID vs Length plot");;
             mret (plots ++ new)
           else mret plots);
  mret plots.

(** [make_report], lines 475 to 478: the loop over the plots. The markup
    of a plot is asked for before its heading is appended. *)
Definition plot_lines (plots : list Plot.t) (html_content : list string)
  : M (list string) :=
  for_each plots
    (λ plot html_content,
       extern (Encode plot) (encode E plot);;
       let html_content := html_content ++ [plot_heading plot] in
       mret (html_content ++ [plot_spacer]))
    html_content.

(** The list [html_content] that [make_report] builds. *)
Definition html_content (plots : list Plot.t) (settings : Settings.t) : M (list string) :=
  emit (Logging_info "Writing html report.");;
  let html_content := ["<body>"] in
  (* Hyperlink Table of Contents panel *)
  let html_content := html_content ++ [div_toc] in
  filtered ← setting "filtered" (Settings.filtered settings);
  let html_content :=
    if filtered : bool then html_content ++ [toc_stats_prior] ++ [toc_stats_after]
    else html_content ++ [toc_stats_single] in
  let html_content := html_content ++ [toc_plots] in
  let html_content := html_content ++ (toc_entry <$> plots) in
  let html_content := html_content ++ ["</div>"] in
  (* The report itself: stats *)
  let html_content :=
    html_content ++ [div_report] in
  filtered ← setting "filtered" (Settings.filtered settings);
  html_content ←
    (if filtered : bool then
       let html_content := html_content ++ [h2_stats_prior] in
       f0 ← index (Settings.statsfile settings) 0;
       t0 ← extern (Stats2html f0) (stats2html E f0);
       let html_content := html_content ++ [t0] in
       let html_content := html_content ++ [h2_stats_after] in
       f1 ← index (Settings.statsfile settings) 1;
       t1 ← extern (Stats2html f1) (stats2html E f1);
       mret (html_content ++ [t1])
     else
       let html_content := html_content ++ [h2_stats_single] in
       f0 ← index (Settings.statsfile settings) 0;
       t0 ← extern (Stats2html f0) (stats2html E f0);
       mret (html_content ++ [t0]));
  (* The report itself: plots *)
  let html_content := html_content ++ [h2_plots] in
  plot_lines plots html_content.

Definition make_report (plots : list Plot.t) (settings : Settings.t) : M string :=
  html_content ← html_content plots settings;
  let html_body := join newline html_content +:+ "</div></body></html>" in
  let html_str := html_head E +:+ html_body in
  let htmlreport := Settings.path settings +:+ "NanoPlot-report.html" in
  extern (File_open htmlreport "w") (file_open E htmlreport "w");;
  emit (File_write htmlreport html_str);;
  lift (file_write E htmlreport html_str);;
  mret htmlreport.

(** [main], lines 44 to 70: the dataset, and its optional copies. *)
Definition load_data (args : Args.t) (settings : Settings.t) : M DataFrame :=
  let sources :=
    [ ("fastq", Args.fastq args); ("bam", Args.bam args); ("cram", Args.cram args);
      ("fastq_rich", Args.fastq_rich args); ("fastq_minimal", Args.fastq_minimal args);
      ("summary", Args.summary args); ("fasta", Args.fasta args);
      ("ubam", Args.ubam args) ] in
  datadf ←
    match given_name (Args.pickle args) with
    | Some file => extern (Pickle_load file) (pickle_load E file)
    | None =>
        source ← index (fst <$> filter (λ ns, given ns.2 = true) sources) 0;
        files ← index (omap snd (filter (λ ns, given ns.2 = true) sources)) 0;
        extern (Get_input source files (Args.threads args) (Args.readtype args)
                  "simple" (Args.barcoded args))
               (get_input E source files (Args.threads args) (Args.readtype args)
                  "simple" (Args.barcoded args))
    end;
  (if Args.store args then
     extern (File_open (Settings.path settings +:+ "NanoPlot-data.pickle") "wb")
            (file_open E (Settings.path settings +:+ "NanoPlot-data.pickle") "wb");;
     extern (Pickle_dump datadf (Settings.path settings +:+ "NanoPlot-data.pickle"))
            (pickle_dump E datadf (Settings.path settings +:+ "NanoPlot-data.pickle"))
   else mret ());;
  (if Args.raw args then
     extern (To_csv datadf "NanoPlot-data.tsv.gz") (to_csv E datadf "NanoPlot-data.tsv.gz")
   else mret ());;
  mret datadf.

(** [main], lines 72 to 75: statistics before filtering, filtering, and
    statistics after filtering when the filter applied. *)
Definition stats_and_filter (datadf : DataFrame) (settings : Settings.t)
  : M (DataFrame * Settings.t) :=
  statsfile ← make_stats datadf settings EmptyString;
  let settings := Settings.set_statsfile [statsfile] settings in
  '(datadf, outcome) ← extern (Filter_and_transform_data datadf settings)
                              (filter_and_transform_data E datadf settings);
  let settings := apply_outcome outcome settings in
  filtered ← setting "filtered" (Settings.filtered settings);
  if filtered : bool then
    statsfile ← make_stats datadf settings "_post_filtering";
    mret (datadf, Settings.set_statsfile (Settings.statsfile settings ++ [statsfile]) settings)
  else mret (datadf, settings).

(** [main], lines 80 to 91: the body of the loop over the barcodes. *)
Definition barcode_body (datadf : DataFrame) (barc : Cell)
    (acc : list Plot.t * Settings.t) : M (list Plot.t * Settings.t) :=
  let '(plots, settings) := acc in
  emit (Logging_info ("Processing " +:+ str_cell (float_repr E) barc));;
  label ← as_str barc;
  let settings :=
    Settings.set_path
      (path_join (Settings.outdir settings) (Settings.prefix settings +:+ label +:+ "_"))
      settings in
  dfbarc ← barcode_frame datadf barc;
  if bool_decide (5 < len dfbarc) then
    let settings := Settings.set_title (Some label) settings in
    new ← make_plots dfbarc settings;
    mret (plots ++ new, settings)
  else
    emit (Stderr_write ("Found barcode " +:+ label +:+ " less than 5x, ignoring..." +:+ newline));;
    emit (Logging_info ("Found barcode " +:+ label +:+ " less than 5 times, ignoring"));;
    mret (plots, settings).

(** [main], lines 77 to 93. *)
Definition plot_stage (datadf : DataFrame) (settings : Settings.t)
  : M (list Plot.t * Settings.t) :=
  if Settings.barcoded settings then
    col ← getitem datadf "barcode";
    let barcodes := unique col in
    for_each barcodes (barcode_body datadf) ([], settings)
  else
    plots ← make_plots datadf settings;
    mret (plots, settings).

(** The [try] block of [main]. *)
Definition run (args : Args.t) : M () :=
  extern (Make_output_dir (Args.outdir args)) (make_output_dir E (Args.outdir args));;
  extern (Init_logs args) (init_logs E args);;
  format ← extern (Check_valid_format (Args.format args))
                  (check_valid_format E (Args.format args));
  let settings :=
    Settings.mk args format (Args.title args)
      (path_join (Args.outdir args) (Args.prefix args)) [] None None None in
  datadf ← load_data args settings;
  '(datadf, settings) ← stats_and_filter datadf settings;
  '(plots, settings) ← plot_stage datadf settings;
  make_report plots settings;;
  emit (Logging_info "Finished!").

(** The [except Exception] handler of [main]. *)
Definition handler (e : Exn) : M () :=
  emit (Logging_error e);;
  for_each crash_message (λ line _, emit (Stdout_print line)) ();;
  raise e.

Definition main (args : Args.t) : M () := try_except (run args) handler.

End Script.

(** ** Observations on a trace *)

Definition calls (t : list Event) : list Call :=
  omap (λ ev, match ev with Called (Render c) => Some c | _ => None end) t.

Definition stderr (t : list Event) : list string :=
  omap (λ ev, match ev with Stderr_write s => Some s | _ => None end) t.

Definition stdout (t : list Event) : list string :=
  omap (λ ev, match ev with Stdout_print s => Some s | _ => None end) t.

Definition log_infos (t : list Event) : list string :=
  omap (λ ev, match ev with Logging_info s => Some s | _ => None end) t.

Definition log_errors (t : list Event) : list Exn :=
  omap (λ ev, match ev with Logging_error e => Some e | _ => None end) t.

Definition files_written (t : list Event) : list string :=
  omap (λ ev, match ev with File_write f _ => Some f | _ => None end) t.

(** The statistics files written: the datasets, the path, the labels. *)
Definition stats_writes (t : list Event)
  : list (list DataFrame * string * option (list Cell)) :=
  omap (λ ev, match ev with
              | Called (Write_stats d f n) => Some (d, f, n)
              | _ => None
              end) t.

(** The aggregate files are written without labels, the barcode breakdown
    with them. *)
Definition aggregate_writes (t : list Event) : list (list DataFrame * string) :=
  omap (λ w, match w with (d, f, None) => Some (d, f) | _ => None end) (stats_writes t).

Definition breakdown_writes (t : list Event)
  : list (list DataFrame * string * list Cell) :=
  omap (λ w, match w with (d, f, Some n) => Some (d, f, n) | _ => None end) (stats_writes t).

Definition stats2html_calls (t : list Event) : list string :=
  omap (λ ev, match ev with Called (Stats2html f) => Some f | _ => None end) t.

Definition call_title (c : Call) : option string :=
  match c with
  | Length_plots a => length_plots.title a
  | Scatter a => scatter.title a
  | Spatial_heatmap a => spatial_heatmap.title a
  | Time_plots a => time_plots.title a
  end.

(** ** The plot families of the specification *)

Inductive Family :=
| Read_length
| Length_vs_quality
| Activity_map
| Time_series
| Aligned_vs_sequenced_length
| MapQ_vs_base_quality
| Read_length_vs_mapQ
| Percent_identity_vs_base_quality
| Aligned_length_vs_percent_identity.

#[global] Instance Family_eq_dec : EqDecision Family.
Proof. solve_decision. Defined.

(** The fixed order of section 4.1. *)
Definition family_order : list Family :=
  [ Read_length; Length_vs_quality; Activity_map; Time_series;
    Aligned_vs_sequenced_length; MapQ_vs_base_quality; Read_length_vs_mapQ;
    Percent_identity_vs_base_quality; Aligned_length_vs_percent_identity ].

(** The columns a family needs, as section 4.1 lists them. *)
Definition required_columns (f : Family) : list string :=
  match f with
  | Read_length => []
  | Length_vs_quality => ["quals"]
  | Activity_map => ["channelIDs"]
  | Time_series => ["start_time"]
  | Aligned_vs_sequenced_length => ["aligned_lengths"; "lengths"]
  | MapQ_vs_base_quality => ["mapQ"; "quals"]
  | Read_length_vs_mapQ => ["mapQ"; "quals"]
  | Percent_identity_vs_base_quality => ["percentIdentity"; "aligned_quals"]
  | Aligned_length_vs_percent_identity => ["percentIdentity"]
  end.

Definition applicable (df : DataFrame) (f : Family) : bool :=
  forallb (contains df) (required_columns f).

(** The families whose required columns are present, in the fixed order. *)
Definition selected_families (df : DataFrame) : list Family :=
  filter (λ f, applicable df f = true) family_order.

(** The family a call into nanoplotter renders: the plotting function and,
    for a scatter, its axis names. *)
Definition family_of (c : Call) : option Family :=
  match c with
  | Length_plots _ => Some Read_length
  | Spatial_heatmap _ => Some Activity_map
  | Time_plots _ => Some Time_series
  | Scatter a =>
      let n := scatter.names a in
      if bool_decide (n = ["Read lengths"; "Average read quality"])
      then Some Length_vs_quality
      else if bool_decide (n = ["Aligned read lengths"; "Sequenced read length"])
      then Some Aligned_vs_sequenced_length
      else if bool_decide (n = ["Read mapping quality"; "Average basecall quality"])
      then Some MapQ_vs_base_quality
      else if bool_decide (n = ["Read length"; "Read mapping quality"])
      then Some Read_length_vs_mapQ
      else if bool_decide (n = ["Percent identity"; "Average Base Quality"])
      then Some Percent_identity_vs_base_quality
      else if bool_decide (n = ["Aligned read length"; "Percent identity"])
      then Some Aligned_length_vs_percent_identity
      else None
  end.

Definition families (t : list Event) : list Family := omap family_of (calls t).

(** The dataset restricted to the rows where [length_filter] is true. *)
Definition restrict (df : DataFrame) : DataFrame :=
  mkDataFrame (columns df)
    (filter (λ r, cell "length_filter" r = CBool true) (rows df)).

(** What the plots returned by the backend for a list of calls add up to. *)
Definition rendered (E : Env) (cs : list Call) : list Plot.t :=
  concat (omap (λ c, match nanoplotter E c with inr ps => Some ps | inl _ => None end) cs).


(** ** Predicates on computations *)

(** [Pre fs m]: the families [m] rendered are an initial part of [fs], and
    all of [fs] when [m] returned. *)
Definition Pre {A} (fs : list Family) (m : M A) : Prop :=
  families m.1 `prefix_of` fs ∧ (∀ a, m.2 = inr a → families m.1 = fs).


(** [Always φ m]: every event of [m] satisfies [φ]. *)
Definition Always {A} (φ : Event → Prop) (m : M A) : Prop := Forall φ m.1.

(** [Silent m]: [m] renders nothing. *)
Definition Silent {A} (m : M A) : Prop := calls m.1 = [].

(** [Acc E g m]: when [m] returns, it returns [g] followed by the plots the
    backend returned for its calls, in the order of the calls. *)
Definition Acc (E : Env) (g : list Plot.t) (m : M (list Plot.t)) : Prop :=
  ∀ p, m.2 = inr p → p = g ++ rendered E (calls m.1).

(** What each plotting call is given: section 4.1 and the invariant on
    [length_filter] of section 3. *)
Definition pointed (df : DataFrame) (st : Settings.t) : option Series :=
  column (restrict df) <$> Settings.lengths_pointer st.

Definition input_ok (df : DataFrame) (st : Settings.t) (c : Call) : Prop :=
  match c with
  | Length_plots a => length_plots.array a = column (restrict df) "lengths"
  | Spatial_heatmap a => spatial_heatmap.array a = column df "channelIDs"
  | Time_plots a => time_plots.df a = df
  | Scatter a =>
      match family_of c with
      | Some Length_vs_quality =>
          Some (scatter.x a) = pointed df st ∧
          scatter.y a = column (restrict df) "quals"
      | Some Aligned_vs_sequenced_length =>
          scatter.x a = column (restrict df) "aligned_lengths" ∧
          scatter.y a = column (restrict df) "lengths"
      | Some Read_length_vs_mapQ =>
          Some (scatter.x a) = pointed df st ∧
          scatter.y a = column (restrict df) "mapQ"
      | Some Aligned_length_vs_percent_identity =>
          Some (scatter.x a) = pointed df st ∧
          scatter.y a = column (restrict df) "percentIdentity"
      | Some MapQ_vs_base_quality =>
          scatter.x a = column df "mapQ" ∧ scatter.y a = column df "quals"
      | Some Percent_identity_vs_base_quality =>
          scatter.x a = column df "percentIdentity" ∧
          scatter.y a = column df "aligned_quals"
      | _ => False
      end
  end.

Definition event_input_ok (df : DataFrame) (st : Settings.t) (ev : Event) : Prop :=
  match ev with
  | Called (Render c) => input_ok df st c
  | _ => True
  end.

(** ** The barcode split of the specification *)

Definition labels (df : DataFrame) : list Cell := unique (column df "barcode").

(** The rows that carry a label. *)
Definition label_frame (df : DataFrame) (b : Cell) : DataFrame :=
  mkDataFrame (columns df) (filter (λ r, cell "barcode" r = b) (rows df)).

Definition label_rows (df : DataFrame) (b : Cell) : nat := len (label_frame df b).

Definition retained (df : DataFrame) : list Cell :=
  filter (λ b, 5 < label_rows df b) (labels df).

Definition skipped (df : DataFrame) : list Cell :=
  filter (λ b, label_rows df b ≤ 5) (labels df).

Definition label_str (b : Cell) : string :=
  match b with
  | CStr s => s
  | _ => EmptyString
  end.

(** The settings of the call for one label: the path and the title of the
    label over the settings the fan-out started from. *)
Definition label_settings (st : Settings.t) (b : Cell) : Settings.t :=
  Settings.set_title (Some (label_str b))
    (Settings.set_path
       (path_join (Settings.outdir st) (Settings.prefix st +:+ label_str b +:+ "_")) st).

Definition skip_notice (b : Cell) : string :=
  "Found barcode " +:+ label_str b +:+ " less than 5x, ignoring..." +:+ newline.

Definition skip_log (b : Cell) : string :=
  "Found barcode " +:+ label_str b +:+ " less than 5 times, ignoring".

(** The settings that differ at most in [path] and [title]. *)
Definition same_base (s s' : Settings.t) : Prop :=
  Settings.args s = Settings.args s' ∧ Settings.format s = Settings.format s' ∧
  Settings.statsfile s = Settings.statsfile s' ∧
  Settings.filtered s = Settings.filtered s' ∧
  Settings.lengths_pointer s = Settings.lengths_pointer s' ∧
  Settings.logBool s = Settings.logBool s'.

(** ** A concrete run, for the examples *)

Definition row (l : list (string * Cell)) : gmap string Cell := list_to_map l.

Definition read (len : Z) (barcode : string) : gmap string Cell :=
  row [("lengths", CInt len); ("quals", CFloat (QArith_base.Qmake 9 1));
       ("percentIdentity", CFloat (QArith_base.Qmake 91 1)); ("barcode", CStr barcode)].

(** Six reads of BC02, then one read of BC01. *)
Definition demo_reads : DataFrame :=
  mkDataFrame ["lengths"; "quals"; "percentIdentity"; "barcode"]
    [ read 100 "BC02"; read 200 "BC02"; read 300 "BC02"; read 400 "BC02";
      read 500 "BC02"; read 600 "BC02"; read 700 "BC01" ].

Definition demo_plot (c : Call) : Plot.t :=
  match c with
  | Length_plots a => Plot.mk (length_plots.name a) (length_plots.path a) "img"
  | Scatter a => Plot.mk (join " vs " (scatter.names a)) (scatter.path a) "img"
  | Spatial_heatmap a => Plot.mk "Number of reads generated per channel" (spatial_heatmap.path a) "img"
  | Time_plots a => Plot.mk "Cumulative yield" (time_plots.path a) "img"
  end.

(** Collaborators that always succeed; the filter marks every read as kept
    and reports [filtered]. *)
Definition demo_env (filtered : bool) : Env :=
  mkEnv (λ _, inr ()) (λ _, inr ())
    (λ f, inr ("<table>" +:+ f +:+ "</table>")) "<html>"
    (λ f, inr f) (λ c, inr c) (λ _ _, inr ())
    (λ c, inr [demo_plot c])
    (λ s, inr (default CNaN (last s)))
    (λ _ _ _, inr ())
    (λ s, s) (λ s _, inr (default CNaN (head s)))
    (λ _ _ _ _ _ _, inr demo_reads)
    (λ _, inl "no pickle")
    (λ _ _, inr ()) (λ _ _, inr ())
    (λ df st, inr (mkDataFrame (columns df ++ ["length_filter"])
                     (<["length_filter" := CBool true]> <$> rows df),
                   mkFilterOutcome filtered "lengths" false))
    (λ _, "0.0")
    (λ _, inr ()) (λ _ _, inr ()) (λ _ _, inr ()).

(** The same, with an output directory that cannot be created. *)
Definition failing_env : Env :=
  mkEnv (λ _, inl "Permission denied") (λ _, inr ())
    (λ f, inr f) "<html>" (λ f, inr f) (λ c, inr c) (λ _ _, inr ())
    (λ c, inr [demo_plot c]) (λ s, inr CNaN) (λ _ _ _, inr ())
    (λ s, s) (λ s _, inr CNaN) (λ _ _ _ _ _ _, inr demo_reads)
    (λ _, inl "no pickle") (λ _ _, inr ()) (λ _ _, inr ())
    (λ df st, inr (df, mkFilterOutcome false "lengths" false))
    (λ _, "0.0")
    (λ _, inr ()) (λ _ _, inr ()) (λ _ _, inr ()).

Definition demo_args (barcoded : bool) : Args.t :=
  Args.mk 4 false false false "out" "run_" None None false None false false false None None
    "1D" barcoded "#4CB391" "png" ["kde"; "dot"] false false false None
    (QArith_base.Qmake 1 1) 100
    (Some ["reads.fastq"]) None None None None None None None None.

(** The settings and the dataset as they reach the plotting stage. *)
Definition demo_settings (barcoded filtered : bool) : Settings.t :=
  Settings.mk (demo_args barcoded) "png" None "out/run_"
    (if filtered then ["out/run_NanoStats.txt"; "out/run_NanoStats_post_filtering.txt"]
     else ["out/run_NanoStats.txt"])
    (Some filtered) (Some "lengths") (Some false).

Definition demo_frame : DataFrame :=
  mkDataFrame (columns demo_reads ++ ["length_filter"])
    (<["length_filter" := CBool true]> <$> rows demo_reads).

(** Every call of a run of [make_plots] carries the title of the settings. *)
Definition titled (st : Settings.t) (ev : Event) : Prop :=
  match ev with
  | Called (Render c) => call_title c = Settings.title st
  | _ => True
  end.

(** The events of the plotting stage: log records, notices, and calls into
    nanoplotter. *)
Definition plotting_event (ev : Event) : Prop :=
  match ev with
  | Logging_info _ | Stderr_write _
  | Called (Render _) | Called (Plot_settings _ _) | Called (Check_valid_color _) => True
  | _ => False
  end.

Definition quiet_event (ev : Event) : Prop :=
  match ev with
  | Stderr_write _ => False
  | _ => True
  end.

(** ** The report of the specification *)

(** The statistics links of the table of contents, section 4.4. *)
Definition stats_links (filtered : bool) : list string :=
  if filtered then [toc_stats_prior; toc_stats_after] else [toc_stats_single].

(** The statistics panel over the rendered tables. *)
Definition stats_panel (filtered : bool) (tables : list string) : list string :=
  match filtered, tables with
  | true, [t0; t1] => [h2_stats_prior; t0; h2_stats_after; t1]
  | false, [t0] => [h2_stats_single; t0]
  | _, _ => []
  end.

Definition plots_panel (plots : list Plot.t) : list string :=
  concat ((λ plot, [plot_heading plot; plot_spacer]) <$> plots).

(** The report as section 4.4 lays it out. *)
Definition report_lines (filtered : bool) (tables : list string) (plots : list Plot.t)
  : list string :=
  ["<body>"; div_toc] ++ stats_links filtered ++ [toc_plots] ++ (toc_entry <$> plots) ++
  ["</div>"] ++ [div_report] ++ stats_panel filtered tables ++ [h2_plots] ++
  plots_panel plots.

(** Whether a character occurs in a string. *)
Fixpoint occurs (a : ascii) (s : string) : bool :=
  match s with
  | EmptyString => false
  | String b s' => bool_decide (a = b) || occurs a s'
  end.

(** ** The statistics of the specification *)

(** The rows Python's [==] selects for a label. *)
Definition matching_frame (df : DataFrame) (b : Cell) : DataFrame :=
  mkDataFrame (columns df) (filter (λ r, cell_eqb (cell "barcode" r) b = true) (rows df)).

Definition aggregate_path (st : Settings.t) (suffix : string) : string :=
  Settings.path st +:+ "NanoStats" +:+ suffix +:+ ".txt".

Definition breakdown_path (st : Settings.t) : string :=
  Settings.path st +:+ "NanoStats_barcoded.txt".

(** The write of the barcode breakdown over a dataset: every label of the
    dataset, with the rows of each. *)
Definition breakdown_of (st : Settings.t) (df : DataFrame)
  : list DataFrame * string * list Cell :=
  (matching_frame df <$> labels df, breakdown_path st, labels df).

(** The run of [make_plots] for one label, and the events of one turn of
    the loop over the labels. *)
Definition label_run (E : Env) (df : DataFrame) (st : Settings.t) (b : Cell)
  : M (list Plot.t) :=
  make_plots E (label_frame df b) (label_settings st b).

Definition turn_trace (E : Env) (df : DataFrame) (st : Settings.t) (b : Cell)
  : list Event :=
  Logging_info ("Processing " +:+ label_str b) ::
  (if decide (5 < label_rows df b) then (label_run E df st b).1
   else [Stderr_write (skip_notice b); Logging_info (skip_log b)]).



(** ** Further notions *)

(** The table [sources] of [main], in the order of the dictionary. *)
Definition source_table (args : Args.t) : list (string * option (list string)) :=
  [ ("fastq", Args.fastq args); ("bam", Args.bam args); ("cram", Args.cram args);
    ("fastq_rich", Args.fastq_rich args); ("fastq_minimal", Args.fastq_minimal args);
    ("summary", Args.summary args); ("fasta", Args.fasta args);
    ("ubam", Args.ubam args) ].

(** The copies of the dataset [main] is asked for. The snapshot is dumped
    into a file the script opens itself. *)
Definition copies (args : Args.t) (st : Settings.t) (df : DataFrame) : list Event :=
  (if Args.store args
   then [Called (File_open (Settings.path st +:+ "NanoPlot-data.pickle") "wb");
         Called (Pickle_dump df (Settings.path st +:+ "NanoPlot-data.pickle"))] else []) ++
  (if Args.raw args then [Called (To_csv df "NanoPlot-data.tsv.gz")] else []).

(** What a call into nanoplotter is given in rows. *)
Definition sized (df : DataFrame) (c : Call) : Prop :=
  match c with
  | Length_plots a => length (length_plots.array a) = len (restrict df)
  | Scatter a => length (scatter.x a) = length (scatter.y a)
  | Spatial_heatmap a => length (spatial_heatmap.array a) = len df
  | Time_plots a => time_plots.df a = df
  end.

(** The events that neither open nor write a file of the script's own. *)
Definition no_file (ev : Event) : Prop :=
  match ev with
  | File_write _ _ | Called (File_open _ _) => False
  | _ => True
  end.

(** The events that are no call into nanoplotter's plotting functions. *)
Definition no_render (ev : Event) : Prop :=
  match ev with
  | Called (Render _) => False
  | _ => True
  end.

(** The events of the stages around the plotting: no file of the script's
    own, no call into nanoplotter's plotting functions. *)
Definition housekeeping (ev : Event) : Prop :=
  match ev with
  | File_write _ _ | Called (File_open _ _) | Called (Render _) => False
  | _ => True
  end.

(** The path and the title the barcode loop leaves in the settings. *)
Definition label_path (st : Settings.t) (b : Cell) : string :=
  path_join (Settings.outdir st) (Settings.prefix st +:+ label_str b +:+ "_").

Definition path_after (st : Settings.t) (df : DataFrame) : string :=
  match last (labels df) with
  | Some b => label_path st b
  | None => Settings.path st
  end.

Definition title_after (st : Settings.t) (df : DataFrame) : option string :=
  match last (retained df) with
  | Some b => Some (label_str b)
  | None => Settings.title st
  end.

(** The files the script itself opened for writing, with the mode, and
    the files it wrote, with their content. *)
Definition opened (t : list Event) : list (string * string) :=
  omap (λ ev, match ev with Called (File_open f m) => Some (f, m) | _ => None end) t.

Definition writes (t : list Event) : list (string * string) :=
  omap (λ ev, match ev with File_write f c => Some (f, c) | _ => None end) t.

(** The report: its path and its text. *)
Definition report_path (st : Settings.t) : string :=
  Settings.path st +:+ "NanoPlot-report.html".

Definition report_text (E : Env) (lines : list string) : string :=
  html_head E +:+ join newline lines +:+ "</div></body></html>".



(** The settings [main] starts from. *)
Definition startup_settings (args : Args.t) (format : string) : Settings.t :=
  Settings.mk args format (Args.title args)
    (path_join (Args.outdir args) (Args.prefix args)) [] None None None.

(** The path and the format a call into nanoplotter is given. *)
Definition call_path (c : Call) : string :=
  match c with
  | Length_plots a => length_plots.path a
  | Scatter a => scatter.path a
  | Spatial_heatmap a => spatial_heatmap.path a
  | Time_plots a => time_plots.path a
  end.

Definition call_format (c : Call) : string :=
  match c with
  | Length_plots a => length_plots.figformat a
  | Scatter a => scatter.figformat a
  | Spatial_heatmap a => spatial_heatmap.figformat a
  | Time_plots a => time_plots.figformat a
  end.

(** The path [make_plots] gives the call of each family. *)
Definition family_path (st : Settings.t) (f : Family) : string :=
  match f with
  | Read_length | Time_series => Settings.path st
  | Length_vs_quality => Settings.path st +:+ "LengthvsQualityScatterPlot"
  | Activity_map => Settings.path st +:+ "ActivityMap_ReadsPerChannel"
  | Aligned_vs_sequenced_length =>
      Settings.path st +:+ "AlignedReadlengthvsSequencedReadLength"
  | MapQ_vs_base_quality => Settings.path st +:+ "MappingQualityvsAverageBaseQuality"
  | Read_length_vs_mapQ => Settings.path st +:+ "MappingQualityvsReadLength"
  | Percent_identity_vs_base_quality =>
      Settings.path st +:+ "PercentIdentityvsAverageBaseQuality"
  | Aligned_length_vs_percent_identity =>
      Settings.path st +:+ "PercentIdentityvsAlignedReadLength"
  end.

Definition pathed (st : Settings.t) (c : Call) : Prop :=
  ∃ f, family_of c = Some f ∧ call_path c = family_path st f ∧
       call_format c = Settings.format st.

Definition event_pathed (st : Settings.t) (ev : Event) : Prop :=
  match ev with
  | Called (Render c) => pathed st c
  | _ => True
  end.

(** The two families that are given the bare path. *)
Definition bare (f : Family) : bool :=
  match f with
  | Read_length | Time_series => true
  | _ => false
  end.

(** * Properties *)

(** ** Facts about the trace monad *)

Section MonadFacts.
Context {A B : Type}.
Implicit Types (m : M A) (f : A → M B).

Lemma bind_ok m f a : m.2 = inr a → m ≫= f = (m.1 ++ (f a).1, (f a).2).
Proof. intros H. unfold mbind, M_bind. by rewrite H. Qed.

Lemma bind_err m f e : m.2 = inl e → m ≫= f = (m.1, inl e).
Proof. intros H. unfold mbind, M_bind. by rewrite H. Qed.

Lemma bind_inv_ok m f b :
  (m ≫= f).2 = inr b →
  ∃ a, m.2 = inr a ∧ (f a).2 = inr b ∧ (m ≫= f).1 = m.1 ++ (f a).1.
Proof.
  destruct m as [t [e|a]]; unfold mbind, M_bind; simpl; [done|]. eauto.
Qed.

End MonadFacts.

Lemma getitem_inv df c s :
  (getitem df c).2 = inr s → s = column df c ∧ contains df c = true.
Proof. unfold getitem. destruct (contains df c); [|done]. by intros [= <-]. Qed.

Lemma getitem_silent df c : (getitem df c).1 = [].
Proof. unfold getitem. by destruct (contains df c). Qed.

Lemma setting_inv {A} key (v : option A) a : (setting key v).2 = inr a → v = Some a.
Proof. destruct v; [|done]. by intros [= <-]. Qed.

Lemma setting_silent {A} key (v : option A) : (setting key v).1 = [].
Proof. by destruct v. Qed.

Lemma lift_inv {A} (r : string + A) a : (lift r).2 = inr a → r = inr a.
Proof. destruct r; [done|]. by intros [= <-]. Qed.

Lemma lift_silent {A} (r : string + A) : (lift r).1 = [].
Proof. by destruct r. Qed.

Lemma extern_trace {A} c (r : string + A) : (extern c r).1 = [Called c].
Proof. by destruct r. Qed.

Lemma extern_inv {A} c (r : string + A) a : (extern c r).2 = inr a → r = inr a.
Proof. destruct r; [done|]. by intros [= <-]. Qed.

Lemma as_str_silent c : (as_str c).1 = [].
Proof. by destruct c. Qed.

Lemma index_silent {A} (l : list A) i : (index l i).1 = [].
Proof. unfold index. by destruct (l !! i). Qed.

Lemma select_filter (rs : list (gmap string Cell)) c :
  select (cell c <$> rs) rs = filter (λ r, cell c r = CBool true) rs.
Proof.
  induction rs as [|r rs IH]; [done|]. cbn [fmap list_fmap select].
  rewrite filter_cons, IH.
  destruct (cell c r) as [| | [] | |] eqn:Hc; cbn [is_true]; by case_decide.
Qed.

Lemma cell_eqb_str c s : cell_eqb c (CStr s) = bool_decide (c = CStr s).
Proof. by destruct c. Qed.

Lemma select_series_eq (rs : list (gmap string Cell)) c v :
  select (series_eq (cell c <$> rs) v) rs = filter (λ r, cell_eqb (cell c r) v = true) rs.
Proof.
  induction rs as [|r rs IH]; [done|]. unfold series_eq in *.
  cbn [fmap list_fmap select is_true]. rewrite filter_cons, IH.
  destruct (cell_eqb (cell c r) v); by case_decide.
Qed.

Lemma matching_frame_str df s : matching_frame df (CStr s) = label_frame df (CStr s).
Proof.
  unfold matching_frame, label_frame. f_equal. apply list_filter_iff. intros r.
  rewrite cell_eqb_str. apply bool_decide_eq_true.
Qed.

Lemma length_filtered_inv df flt :
  (length_filtered df).2 = inr flt →
  flt = restrict df ∧ contains df "length_filter" = true ∧
  forallb is_bool (column df "length_filter") = true.
Proof.
  unfold length_filtered. intros H.
  apply bind_inv_ok in H as (mask & Hm & H & _).
  apply getitem_inv in Hm as [-> Hc]. unfold getitem_mask in H.
  destruct (forallb _ _) eqn:Hb; [|done]. injection H as <-.
  split; [|done]. unfold restrict, column. by rewrite select_filter.
Qed.

Lemma length_filtered_silent df : (length_filtered df).1 = [].
Proof.
  unfold length_filtered, getitem, getitem_mask.
  destruct (contains df _); [|done].
  rewrite (bind_ok _ _ (column df "length_filter")) by done.
  by destruct (forallb _ _).
Qed.

Lemma barcode_frame_silent df b : (barcode_frame df b).1 = [].
Proof.
  unfold barcode_frame, getitem, getitem_mask.
  destruct (contains df _); [|done].
  rewrite (bind_ok _ _ (column df "barcode")) by done. cbn.
  by destruct (forallb _ _).
Qed.

Lemma forallb_is_bool_series_eq s v : forallb is_bool (series_eq s v) = true.
Proof. unfold series_eq. by induction s. Qed.

Lemma barcode_frame_ok df b :
  contains df "barcode" = true →
  barcode_frame df b = ([], inr (matching_frame df b)).
Proof.
  intros Hc. unfold barcode_frame, getitem, getitem_mask. rewrite Hc.
  rewrite (bind_ok _ _ (column df "barcode")) by done. cbn [fst snd].
  rewrite forallb_is_bool_series_eq. unfold matching_frame, column.
  by rewrite select_series_eq.
Qed.

Lemma comprehension_ok {A B} (f : A → M B) (g : A → B) l :
  (∀ x, f x = ([], inr (g x))) → comprehension f l = ([], inr (g <$> l)).
Proof.
  intros Hf. induction l as [|x l IH]; [done|].
  cbn [comprehension]. rewrite Hf, IH. done.
Qed.


Lemma families_app t1 t2 : families (t1 ++ t2) = families t1 ++ families t2.
Proof. unfold families, calls. by rewrite !omap_app. Qed.

Lemma calls_app t1 t2 : calls (t1 ++ t2) = calls t1 ++ calls t2.
Proof. unfold calls. by rewrite omap_app. Qed.

Lemma rendered_app E c1 c2 : rendered E (c1 ++ c2) = rendered E c1 ++ rendered E c2.
Proof. unfold rendered. by rewrite omap_app, concat_app. Qed.

(** ** Rules for the predicates *)

Section Rules.
Context {A B : Type}.
Implicit Types (m : M A) (f : A → M B).

Lemma Pre_bind fs1 fs2 m f :
  Pre fs1 m → (∀ a, Pre fs2 (f a)) → Pre (fs1 ++ fs2) (m ≫= f).
Proof.
  intros [Hp Hm] Hf. destruct m as [t [e|a]]; simpl in *.
  - rewrite (bind_err _ _ e) by done. split; [|done]. simpl.
    by apply prefix_app_r.
  - rewrite (bind_ok _ _ a) by done. destruct (Hf a) as [Hp' Hf'].
    unfold Pre. simpl. rewrite families_app, (Hm a) by done. split.
    + by apply prefix_app.
    + intros b Hb. by rewrite (Hf' b).
Qed.

Lemma Pre_if fs1 fs2 (b : bool) (m1 m2 : M A) :
  Pre fs1 m1 → Pre fs2 m2 → Pre (if b then fs1 else fs2) (if b then m1 else m2).
Proof. by destruct b. Qed.

Lemma Pre_eq fs fs' m : Pre fs' m → fs' = fs → Pre fs m.
Proof. by intros ? <-. Qed.

Lemma Pre_silent m : m.1 = [] → Pre [] m.
Proof. intros H. split; rewrite H; [done|by intros]. Qed.

Lemma Pre_extern c (r : string + A) :
  match c with Render _ => False | _ => True end → Pre [] (extern c r).
Proof. intros Hc. split; rewrite extern_trace; by destruct c. Qed.





Lemma Always_bind φ m f :
  Always φ m → (∀ a, m.2 = inr a → Always φ (f a)) → Always φ (m ≫= f).
Proof.
  unfold Always. intros Hm Hf.
  destruct m as [t [e|a]]; unfold mbind, M_bind; simpl in *; [done|].
  apply Forall_app. split; [done|by apply Hf].
Qed.

Lemma Always_weaken (φ ψ : Event → Prop) m :
  (∀ ev, φ ev → ψ ev) → Always φ m → Always ψ m.
Proof. unfold Always. intros H Hm. eapply Forall_impl; eauto. Qed.

Lemma Always_silent φ m : m.1 = [] → Always φ m.
Proof. unfold Always. intros H. by rewrite H. Qed.

Lemma Always_extern φ c (r : string + A) : φ (Called c) → Always φ (extern c r).
Proof. unfold Always. rewrite extern_trace. by repeat constructor. Qed.

Lemma Silent_bind m f : Silent m → (∀ a, Silent (f a)) → Silent (m ≫= f).
Proof.
  unfold Silent. intros Hm Hf.
  destruct m as [t [e|a]]; unfold mbind, M_bind; simpl in *; [done|].
  by rewrite calls_app, Hm, Hf.
Qed.

Lemma Silent_nil m : m.1 = [] → Silent m.
Proof. unfold Silent. intros H. by rewrite H. Qed.

Lemma Silent_extern c (r : string + A) :
  match c with Render _ => False | _ => True end → Silent (extern c r).
Proof. unfold Silent. rewrite extern_trace. by destruct c. Qed.
End Rules.

Lemma Always_for_each {A S} φ (body : A → S → M S) l acc :
  (∀ x acc, Always φ (body x acc)) → Always φ (for_each l body acc).
Proof.
  intros Hb. revert acc. induction l as [|x l IH]; intros acc; [by apply Always_silent|].
  cbn [for_each]. apply Always_bind; [apply Hb|]. intros acc' _. apply IH.
Qed.

Lemma Always_emit φ ev : φ ev → Always φ (emit ev).
Proof. unfold Always. by repeat constructor. Qed.

Lemma Pre_render E c f : family_of c = Some f → Pre [f] (render E c).
Proof.
  intros H. unfold render. split; rewrite extern_trace; cbn; by rewrite H.
Qed.

Section AccRules.
Context (E : Env).

Lemma Acc_ret g : Acc E g (mret g).
Proof. intros p [= <-]. cbn. by rewrite app_nil_r. Qed.

Lemma Acc_bind_acc g (m : M (list Plot.t)) f :
  Acc E g m → (∀ p, Acc E p (f p)) → Acc E g (m ≫= f).
Proof.
  intros Hm Hf p Hp. apply bind_inv_ok in Hp as (a & Ha & Hp & ->).
  rewrite calls_app, rendered_app, (Hf a p Hp), (Hm a Ha). by rewrite app_assoc.
Qed.

Lemma Acc_bind_new g (m : M (list Plot.t)) f :
  Acc E [] m → (∀ new, Acc E (g ++ new) (f new)) → Acc E g (m ≫= f).
Proof.
  intros Hm Hf p Hp. apply bind_inv_ok in Hp as (a & Ha & Hp & ->).
  rewrite calls_app, rendered_app, (Hf a p Hp), <-app_assoc.
  do 2 f_equal. exact (Hm a Ha).
Qed.

Lemma Acc_bind_silent {A} g (m : M A) f :
  Silent m → (∀ a, Acc E g (f a)) → Acc E g (m ≫= f).
Proof.
  intros Hm Hf p Hp. apply bind_inv_ok in Hp as (a & Ha & Hp & ->).
  by rewrite calls_app, Hm, (Hf a p Hp).
Qed.

Lemma Acc_if g (b : bool) m1 m2 :
  Acc E g m1 → Acc E g m2 → Acc E g (if b then m1 else m2).
Proof. by destruct b. Qed.

Lemma Acc_render c : Acc E [] (render E c).
Proof.
  intros p Hp. unfold render in *. rewrite extern_trace.
  apply extern_inv in Hp. unfold rendered. cbn. rewrite Hp. cbn.
  by rewrite app_nil_r.
Qed.
End AccRules.

(** ** Stepping through a computation *)

Ltac inv_val H :=
  lazymatch type of H with
  | (getitem _ _).2 = inr _ => apply getitem_inv in H as [-> ?]
  | (length_filtered _).2 = inr _ => apply length_filtered_inv in H as (-> & ? & ?)
  | (setting _ _).2 = inr _ => apply setting_inv in H; try (injection H as <-)
  | (lift _).2 = inr _ => apply lift_inv in H
  | _ => clear H
  end.


Ltac pre_step :=
  lazymatch goal with
  | |- Pre _ (mbind _ _) => eapply Pre_bind; [|intros]
  | |- Pre _ (if _ then _ else _) => eapply Pre_if
  | |- Pre _ (render _ _) => eapply Pre_render; reflexivity
  | |- Pre _ (length_filtered _) => apply Pre_silent, length_filtered_silent
  | |- Pre _ (getitem _ _) => apply Pre_silent, getitem_silent
  | |- Pre _ (setting _ _) => apply Pre_silent, setting_silent
  | |- Pre _ (lift _) => apply Pre_silent, lift_silent
  | |- Pre _ (mret _) => by apply Pre_silent
  | |- Pre _ (emit (Logging_info _)) => by split
  | |- Pre _ (extern _ _) => by apply Pre_extern
  end.

Ltac silent_step :=
  lazymatch goal with
  | |- Silent (mbind _ _) => apply Silent_bind; [|intros]
  | |- Silent (if ?b then _ else _) => destruct b
  | |- Silent (length_filtered _) => apply Silent_nil, length_filtered_silent
  | |- Silent (getitem _ _) => apply Silent_nil, getitem_silent
  | |- Silent (setting _ _) => apply Silent_nil, setting_silent
  | |- Silent (lift _) => apply Silent_nil, lift_silent
  | |- Silent (mret _) => by apply Silent_nil
  | |- Silent (emit (Logging_info _)) => reflexivity
  | |- Silent (extern _ _) => by apply Silent_extern
  end.

Ltac acc_step :=
  lazymatch goal with
  | |- Acc _ ?g (mret ?g) => apply Acc_ret
  | |- Acc _ _ (render _ _) => apply Acc_render
  | |- Acc _ _ (if _ then _ else _) => apply Acc_if
  | |- Acc _ _ (@mbind _ _ (list Plot.t) _ _ (if _ then _ else _)) =>
      apply Acc_bind_acc; [|intros]
  | |- Acc _ _ (@mbind _ _ (list Plot.t) _ _ _) => apply Acc_bind_new; [|intros]
  | |- Acc _ _ (mbind _ _) => apply Acc_bind_silent; [repeat silent_step|intros]
  end.

Ltac always_step leaf :=
  lazymatch goal with
  | |- Always _ (mbind _ _) =>
      apply Always_bind;
      [|let v := fresh "v" in let H := fresh "Hv" in intros v H; inv_val H]
  | |- Always _ (if ?b then _ else _) => destruct b eqn:?
  | |- Always _ (length_filtered _) => apply Always_silent, length_filtered_silent
  | |- Always _ (getitem _ _) => apply Always_silent, getitem_silent
  | |- Always _ (setting _ _) => apply Always_silent, setting_silent
  | |- Always _ (lift _) => apply Always_silent, lift_silent
  | |- Always _ (index _ _) => apply Always_silent, index_silent
  | |- Always _ (as_str _) => apply Always_silent, as_str_silent
  | |- Always _ (barcode_frame _ _) => apply Always_silent, barcode_frame_silent
  | |- Always _ (mret _) => by apply Always_silent
  | |- Always _ (emit _) => apply Always_emit; leaf
  | |- Always _ (render _ _) => apply Always_extern; leaf
  | |- Always _ (extern _ _) => apply Always_extern; leaf
  end.

Ltac input_leaf :=
  idtac;
  lazymatch goal with
  | |- event_input_ok _ _ (Called (Render ?c)) =>
      cbn [event_input_ok]; unfold input_ok;
      let f := eval vm_compute in (family_of c) in
      change (family_of c) with f;
      cbn; unfold pointed;
      repeat match goal with H : _ = Some _ |- _ => rewrite H end;
      by repeat split
  | |- _ => exact I
  end.




(** ** [make_plots] *)

Lemma filter_cons_app {A} (P : A → Prop) `{!∀ x, Decision (P x)} x l :
  filter P (x :: l) = (if decide (P x) then [x] else []) ++ filter P l.
Proof. rewrite filter_cons. by destruct (decide (P x)). Qed.

Lemma if_decide_true {A} (b : bool) (x y : A) :
  (if decide (b = true) then x else y) = if b then x else y.
Proof. by destruct b. Qed.

(** The selection of section 4.1, block by block. *)
Lemma selected_families_eq df :
  selected_families df =
  [Read_length] ++
  (if contains df "quals" then [Length_vs_quality] else []) ++
  (if contains df "channelIDs" then [Activity_map] else []) ++
  (if contains df "start_time" then [Time_series] else []) ++
  (if contains df "aligned_lengths" && contains df "lengths"
   then [Aligned_vs_sequenced_length] else []) ++
  (if contains df "mapQ" && contains df "quals"
   then [MapQ_vs_base_quality; Read_length_vs_mapQ] else []) ++
  (if contains df "percentIdentity"
   then (if contains df "aligned_quals" then [Percent_identity_vs_base_quality] else [])
        ++ [Aligned_length_vs_percent_identity]
   else []).
Proof.
  unfold selected_families, family_order, applicable.
  rewrite !filter_cons_app, filter_nil.
  cbn [required_columns forallb]. rewrite !if_decide_true, !andb_true_r.
  destruct (contains df "mapQ" && contains df "quals");
    destruct (contains df "percentIdentity"), (contains df "aligned_quals"); reflexivity.
Qed.

(** The families rendered are the selected ones, up to the point where the
    run stopped. *)
Lemma make_plots_Pre E df st : Pre (selected_families df) (make_plots E df st).
Proof.
  unfold make_plots. cbv zeta.
  eapply Pre_eq.
  - repeat pre_step.
  - rewrite selected_families_eq.
    generalize (contains df "mapQ" && contains df "quals")
      (contains df "aligned_lengths" && contains df "lengths").
    generalize (contains df "quals") (contains df "channelIDs") (contains df "start_time")
      (contains df "percentIdentity") (contains df "aligned_quals") (Settings.N50 st).
    intros [] [] [] [] [] [] [] []; reflexivity.
Qed.

(** The plots returned are what the backend returned, call after call. *)
Lemma make_plots_Acc E df st : Acc E [] (make_plots E df st).
Proof. unfold make_plots. cbv zeta. repeat acc_step. Qed.

(** What each call is given. *)
Lemma make_plots_inputs E df st : Always (event_input_ok df st) (make_plots E df st).
Proof. unfold make_plots. cbv zeta. repeat always_step input_leaf. Qed.

Lemma make_plots_titled E df st : Always (titled st) (make_plots E df st).
Proof. unfold make_plots. cbv zeta. repeat always_step ltac:(idtac; by cbn). Qed.

Lemma make_plots_events E df st :
  Always (λ ev, plotting_event ev ∧ quiet_event ev) (make_plots E df st).
Proof. unfold make_plots. cbv zeta. repeat always_step ltac:(idtac; by cbn). Qed.


Lemma Always_calls {A} (φ : Event → Prop) (ψ : Call → Prop) (m : M A) :
  (∀ c, φ (Called (Render c)) → ψ c) → Always φ m → Forall ψ (calls m.1).
Proof.
  unfold Always. intros Hc Ht. apply Forall_forall. intros c Hin.
  apply list_elem_of_omap in Hin as (ev & Hev & Heq).
  rewrite Forall_forall in Ht.
  destruct ev as [| | | | |[]]; try done. injection Heq as ->. by apply Hc, Ht.
Qed.

Lemma prefix_sublist {A} (l1 l2 : list A) : l1 `prefix_of` l2 → l1 `sublist_of` l2.
Proof. intros [k ->]. by apply sublist_inserts_r. Qed.




(** C8. Two runs of [make_plots] on the same dataset and settings that
    both return render the same families in the same order, those whose
    columns are present, in the fixed order of section 4.1, whatever the
    collaborators answered; each run returns the plots of its calls in the
    order of the calls, and the same run returns the same titles. *)
Theorem make_plots_order_stable E E' df st plots plots' :
  (make_plots E df st).2 = inr plots →
  (make_plots E' df st).2 = inr plots' →
  families (make_plots E df st).1 = families (make_plots E' df st).1 ∧
  families (make_plots E df st).1 = selected_families df ∧
  families (make_plots E df st).1 `sublist_of` family_order ∧
  plots = rendered E (calls (make_plots E df st).1) ∧
  plots' = rendered E' (calls (make_plots E' df st).1) ∧
  (E = E' → Plot.title <$> plots = Plot.title <$> plots').
Proof.
  intros H H'.
  destruct (make_plots_Pre E df st) as [_ Ha].
  destruct (make_plots_Pre E' df st) as [_ Ha'].
  rewrite (Ha _ H), (Ha' _ H'). repeat split.
  - apply sublist_filter.
  - by apply make_plots_Acc.
  - by apply make_plots_Acc.
  - intros <-. rewrite H in H'. by injection H' as <-.
Qed.

Lemma make_plots_order_stable_witness :
  families (make_plots (demo_env false) demo_frame (demo_settings false false)).1
  = families (make_plots (demo_env true) demo_frame (demo_settings false false)).1.
Proof.
  exact (proj1 (make_plots_order_stable (demo_env false) (demo_env true) demo_frame
                  (demo_settings false false) _ _ eq_refl eq_refl)).
Defined.




(** ** The report *)

Lemma replace_space_no_space s : occurs " " (replace_space s) = false.
Proof.
  induction s as [|a s IH]; [done|]. cbn [replace_space occurs]. rewrite IH, orb_false_r.
  destruct (decide (a = (" " : ascii))) as [->|Hne]; [done|].
  rewrite (bool_decide_eq_false_2 (a = _)) by done.
  apply bool_decide_eq_false_2. congruence.
Qed.

Lemma replace_space_length s : String.length (replace_space s) = String.length s.
Proof. induction s as [|a s IH]; [done|]. cbn. by rewrite IH. Qed.

Lemma replace_space_get s i :
  String.get i (replace_space s) =
  (λ a, if bool_decide (a = (" " : ascii)) then ("_" : ascii) else a) <$> String.get i s.
Proof.
  revert i. induction s as [|a s IH]; intros i; [done|]. destruct i; cbn; [done|apply IH].
Qed.

(** Replacing spaces by underscores loses nothing on titles that hold no
    underscore. *)
Lemma replace_space_inj s1 s2 :
  occurs "_" s1 = false → occurs "_" s2 = false →
  replace_space s1 = replace_space s2 → s1 = s2.
Proof.
  revert s2. induction s1 as [|a s1 IH]; intros [|b s2]; try done.
  cbn [occurs replace_space]. intros H1 H2 [= Hab Hs].
  apply orb_false_iff in H1 as [Ha H1], H2 as [Hb H2].
  apply bool_decide_eq_false in Ha, Hb.
  f_equal; [|by apply IH].
  repeat case_bool_decide; congruence.
Qed.

Lemma anchors_NoDup (plots : list Plot.t) :
  NoDup (Plot.title <$> plots) →
  Forall (λ p, occurs "_" (Plot.title p) = false) plots →
  NoDup (anchor <$> plots).
Proof.
  induction plots as [|p plots IH]; [constructor|].
  rewrite !fmap_cons, !NoDup_cons, Forall_cons. intros [Hp Hnd] [Hu Hall].
  split; [|by apply IH]. intros Hin. apply Hp.
  apply list_elem_of_fmap in Hin as (q & Heq & Hq).
  apply list_elem_of_fmap. exists q. split; [|done].
  apply replace_space_inj; [done| |done].
  rewrite Forall_forall in Hall. by apply Hall.
Qed.

(** The loop over the plots, when it returns and when every plot encodes. *)
Lemma plot_lines_inv E plots acc v :
  (plot_lines E plots acc).2 = inr v →
  v = acc ++ plots_panel plots ∧
  Forall (λ p, encode E p = inr ()) plots ∧
  (plot_lines E plots acc).1 = (λ p, Called (Encode p)) <$> plots.
Proof.
  unfold plot_lines, plots_panel. revert acc.
  induction plots as [|p plots IH]; intros acc.
  - cbn. intros [= <-]. by rewrite app_nil_r.
  - cbn [for_each]. intros H. apply bind_inv_ok in H as (acc1 & Hb & H & ->).
    apply bind_inv_ok in Hb as ([] & He & Hb & ->). apply extern_inv in He.
    cbn in Hb. injection Hb as <-.
    destruct (IH _ H) as (-> & Hall & ->).
    split; [cbn; by rewrite <-!app_assoc|]. split; [by constructor|].
    rewrite extern_trace. by cbn.
Qed.

Lemma plot_lines_eq E plots acc :
  Forall (λ p, encode E p = inr ()) plots →
  plot_lines E plots acc =
    ((λ p, Called (Encode p)) <$> plots, inr (acc ++ plots_panel plots)).
Proof.
  unfold plot_lines, plots_panel. intros Hall. revert acc.
  induction Hall as [|p plots Hp _ IH]; intros acc.
  - cbn. by rewrite app_nil_r.
  - cbn [for_each]. rewrite Hp. cbn -[for_each]. rewrite IH. cbn.
    by rewrite <-!app_assoc.
Qed.

Lemma stats2html_calls_app t1 t2 :
  stats2html_calls (t1 ++ t2) = stats2html_calls t1 ++ stats2html_calls t2.
Proof. unfold stats2html_calls. by rewrite omap_app. Qed.

Lemma stats2html_calls_encode plots :
  stats2html_calls ((λ p, Called (Encode p)) <$> plots) = [].
Proof. by induction plots. Qed.

(** What [html_content] returns, when it returns. *)
Lemma html_content_inv E plots st hc :
  (html_content E plots st).2 = inr hc →
  ∃ f files tables,
    Settings.filtered st = Some f ∧
    mapM (λ i, Settings.statsfile st !! i) (seq 0 (if f then 2 else 1)) = Some files ∧
    stats2html_calls (html_content E plots st).1 = files ∧
    Forall2 (λ file table, stats2html E file = inr table) files tables ∧
    hc = report_lines f tables plots.
Proof.
  unfold html_content. cbv zeta.
  destruct (Settings.filtered st) as [[]|]; [| |done].
  - unfold index. destruct (Settings.statsfile st) as [|f0 [|f1 l]]; [done| |].
    { cbn. by destruct (stats2html E f0). }
    cbn [lookup list_lookup]. cbn -[plot_lines].
    destruct (stats2html E f0) as [|t0] eqn:H0; [done|]. cbn -[plot_lines].
    destruct (stats2html E f1) as [|t1] eqn:H1; [done|]. cbn -[plot_lines].
    intros H. apply plot_lines_inv in H as (-> & _ & ->).
    exists true, [f0; f1], [t0; t1].
    split; [done|]. split; [done|]. split.
    { do 2 f_equal; try apply stats2html_calls_encode. }
    split; [by repeat constructor|].
    unfold report_lines. cbn. by rewrite <-!app_assoc.
  - unfold index. destruct (Settings.statsfile st) as [|f0 l]; [done|].
    cbn [lookup list_lookup]. cbn -[plot_lines].
    destruct (stats2html E f0) as [|t0] eqn:H0; [done|]. cbn -[plot_lines].
    intros H. apply plot_lines_inv in H as (-> & _ & ->).
    exists false, [f0], [t0].
    split; [done|]. split; [done|]. split.
    { do 2 f_equal; try apply stats2html_calls_encode. }
    split; [by repeat constructor|].
    unfold report_lines. cbn. by rewrite <-!app_assoc.
Qed.

(** C4, as the code has it. When the settings carry one statistics file
    per stage ([filtered] set and two files, or not set and one file) and
    [html_content] returns, the table of contents opens the report: one link
    per statistics file (the two links prior to and after filtering, or the
    single Summary Statistics link), the link to the plots, then one link per
    plot in the order of the plot list, followed by the statistics tables
    and one heading per plot in the same order. The anchor of a plot is its
    title with every space replaced by an underscore. Two plots have the
    same anchor exactly when their titles agree after that replacement: the
    anchors of a plot list are distinct when its titles are distinct and
    hold no underscore. *)
Theorem report_table_of_contents E plots st f hc :
  Settings.filtered st = Some f →
  length (Settings.statsfile st) = (if f then 2 else 1) →
  (html_content E plots st).2 = inr hc →
  (∃ tables,
     Forall2 (λ file table, stats2html E file = inr table) (Settings.statsfile st) tables ∧
     hc = report_lines f tables plots) ∧
  length (stats_links f) = length (Settings.statsfile st) ∧
  (∀ p, anchor p = replace_space (Plot.title p) ∧
        String.length (anchor p) = String.length (Plot.title p) ∧
        occurs " " (anchor p) = false ∧
        ∀ i, String.get i (anchor p) =
             (λ a, if bool_decide (a = (" " : ascii)) then ("_" : ascii) else a)
               <$> String.get i (Plot.title p)) ∧
  (∀ p q, anchor p = anchor q ↔
          replace_space (Plot.title p) = replace_space (Plot.title q)) ∧
  (NoDup (Plot.title <$> plots) →
   Forall (λ p, occurs "_" (Plot.title p) = false) plots →
   NoDup (anchor <$> plots)).
Proof.
  intros Hf Hlen Hr. split; [|split; [|split; [|split]]].
  - apply html_content_inv in Hr as (f' & files & tables & Hf' & Hfiles & _ & Htab & ->).
    rewrite Hf in Hf'. injection Hf' as <-. exists tables. split; [|done].
    destruct f, (Settings.statsfile st) as [|f0 [|f1 [|]]]; try done;
      cbn in Hfiles; by injection Hfiles as <-.
  - rewrite Hlen. by destruct f.
  - intros p. unfold anchor.
    auto using replace_space_length, replace_space_no_space, replace_space_get.
  - done.
  - apply anchors_NoDup.
Qed.

Lemma report_table_of_contents_witness :
  ∃ hc,
    (html_content (demo_env false)
       [Plot.mk "Read length" "a.png" "x"; Plot.mk "Cumulative yield" "b.png" "y"]
       (demo_settings false false)).2 = inr hc ∧
    NoDup (anchor <$> [Plot.mk "Read length" "a.png" "x"; Plot.mk "Cumulative yield" "b.png" "y"]).
Proof.
  eexists. split; [reflexivity|].
  refine (proj2 (proj2 (proj2 (proj2
    (report_table_of_contents (demo_env false)
       [Plot.mk "Read length" "a.png" "x"; Plot.mk "Cumulative yield" "b.png" "y"]
       (demo_settings false false) false _
       eq_refl eq_refl ltac:(vm_compute; reflexivity))))) _ _).
  - apply (bool_decide_unpack _). by vm_compute.
  - by repeat constructor.
Defined.

(** C4, as stated, fails: two distinct plots with distinct titles get the
    same anchor, and the report links both entries to it. *)
Lemma report_anchor_collision :
  (html_content (demo_env false)
     [Plot.mk "Read length" "a.png" "x"; Plot.mk "Read_length" "b.png" "y"]
     (demo_settings false false)).2
  = inr (report_lines false ["<table>out/run_NanoStats.txt</table>"]
           [Plot.mk "Read length" "a.png" "x"; Plot.mk "Read_length" "b.png" "y"]) ∧
  Plot.title (Plot.mk "Read length" "a.png" "x") ≠ Plot.title (Plot.mk "Read_length" "b.png" "y") ∧
  anchor (Plot.mk "Read length" "a.png" "x") = anchor (Plot.mk "Read_length" "b.png" "y") ∧
  ¬ NoDup (anchor <$> [Plot.mk "Read length" "a.png" "x"; Plot.mk "Read_length" "b.png" "y"]).
Proof.
  split; [by vm_compute|]. split; [done|]. split; [done|].
  intros Hnd. apply NoDup_cons in Hnd as [Hin _]. apply Hin. by left.
Qed.

(** ** The statistics stage *)

Lemma stats_writes_app t1 t2 : stats_writes (t1 ++ t2) = stats_writes t1 ++ stats_writes t2.
Proof. unfold stats_writes. by rewrite omap_app. Qed.

(** What [make_stats] writes and returns, when it returns. *)
Lemma make_stats_inv E df st suffix p :
  (make_stats E df st suffix).2 = inr p →
  if Settings.barcoded st then
    p = breakdown_path st ∧
    stats_writes (make_stats E df st suffix).1 =
      [ ([df], aggregate_path st suffix, None);
        (matching_frame df <$> labels df, breakdown_path st, Some (labels df)) ]
  else
    p = aggregate_path st suffix ∧
    stats_writes (make_stats E df st suffix).1 = [([df], aggregate_path st suffix, None)].
Proof.
  unfold make_stats. cbv zeta. fold (aggregate_path st suffix) (breakdown_path st).
  destruct (write_stats E [df] _ None) as [|[]]; [done|].
  destruct (Settings.barcoded st).
  - unfold getitem. destruct (contains df "barcode") eqn:Hc; [|done].
    cbn -[barcode_frame comprehension unique]. fold (labels df).
    rewrite (comprehension_ok _ (matching_frame df)) by (intros; by apply barcode_frame_ok).
    cbn.
    destruct (write_stats E _ _ (Some _)) as [|[]]; [done|]. cbn. by intros [= <-].
  - cbn. by intros [= <-].
Qed.

(** The steps of [stats_and_filter], when it returns. *)
Lemma stats_and_filter_inv E df st v :
  (stats_and_filter E df st).2 = inr v →
  ∃ p0 fo,
    (make_stats E df st EmptyString).2 = inr p0 ∧
    filter_and_transform_data E df (Settings.set_statsfile [p0] st) = inr (v.1, fo) ∧
    Settings.filtered v.2 = Some (fo_filtered fo) ∧
    same_base (apply_outcome fo (Settings.set_statsfile (Settings.statsfile v.2) st)) v.2 ∧
    Settings.path v.2 = Settings.path st ∧ Settings.title v.2 = Settings.title st ∧
    if fo_filtered fo then
      ∃ p1,
        (make_stats E v.1 (apply_outcome fo (Settings.set_statsfile [p0] st))
           "_post_filtering").2 = inr p1 ∧
        Settings.statsfile v.2 = [p0; p1] ∧
        stats_writes (stats_and_filter E df st).1 =
          stats_writes (make_stats E df st EmptyString).1 ++
          stats_writes (make_stats E v.1 (apply_outcome fo (Settings.set_statsfile [p0] st))
                          "_post_filtering").1
    else
      Settings.statsfile v.2 = [p0] ∧
      stats_writes (stats_and_filter E df st).1 =
        stats_writes (make_stats E df st EmptyString).1.
Proof.
  unfold stats_and_filter.
  destruct (make_stats E df st EmptyString) as [t0 [e|p0]] eqn:H0; [done|].
  rewrite (bind_ok _ _ p0) by done. cbn [fst snd].
  destruct (filter_and_transform_data E df (Settings.set_statsfile [p0] st))
    as [msg|[df1 fo]] eqn:Hfo; [done|].
  cbn -[make_stats]. destruct (fo_filtered fo) eqn:Hf.
  - destruct (make_stats E df1 _ "_post_filtering") as [t1 [e|p1]] eqn:H1; [done|].
    cbn. intros [= <-]. exists p0, fo. cbn. rewrite Hf, H1. repeat split; try done.
    exists p1. repeat split; try done.
    rewrite !stats_writes_app. cbn. by rewrite app_nil_r.
  - cbn. intros [= <-]. exists p0, fo. cbn. rewrite Hf. repeat split; try done.
    rewrite !stats_writes_app. cbn. by rewrite app_nil_r.
Qed.

(** C3. When the statistics stage returns, the statistics before filtering
    are written to [<path>NanoStats.txt]; the statistics after filtering are
    written, to [<path>NanoStats_post_filtering.txt], exactly when the
    filtering stage reported [filtered]; the settings list one statistics
    file per statistics written. When nothing was filtered, one aggregate
    statistics file is written (the only statistics file outside barcode
    mode), and the table of contents of the report shows the single
    Summary Statistics link. *)
Theorem statistics_files E df st v :
  (stats_and_filter E df st).2 = inr v →
  ∃ f,
    Settings.filtered v.2 = Some f ∧
    (∃ p0 fo,
       filter_and_transform_data E df (Settings.set_statsfile [p0] st) = inr (v.1, fo) ∧
       f = fo_filtered fo) ∧
    aggregate_writes (stats_and_filter E df st).1 =
      ([df], aggregate_path st EmptyString) ::
      (if f then [([v.1], aggregate_path st "_post_filtering")] else []) ∧
    length (Settings.statsfile v.2) = (if f then 2 else 1) ∧
    (∀ plots hc, (html_content E plots v.2).2 = inr hc →
       ∃ tables, length tables = length (Settings.statsfile v.2) ∧
                 hc = report_lines f tables plots) ∧
    (f = false →
       length (aggregate_writes (stats_and_filter E df st).1) = 1 ∧
       (Settings.barcoded st = false →
          length (stats_writes (stats_and_filter E df st).1) = 1) ∧
       ∀ plots hc, (html_content E plots v.2).2 = inr hc →
         ∃ rest,
           hc = ["<body>"; div_toc; toc_stats_single; toc_plots] ++
                (toc_entry <$> plots) ++ "</div>" :: rest).
Proof.
  intros H.
  apply stats_and_filter_inv in H as (p0 & fo & Hp0 & Hfo & Hflt & _ & _ & _ & H).
  exists (fo_filtered fo). split; [done|]. split; [by eauto|].
  apply make_stats_inv in Hp0.
  assert (length (Settings.statsfile v.2) = (if fo_filtered fo then 2 else 1)) as Hlen.
  { destruct (fo_filtered fo); [destruct H as (p1 & _ & -> & _)|destruct H as [-> _]]; done. }
  assert (∀ plots hc, (html_content E plots v.2).2 = inr hc →
            ∃ tables, length tables = length (Settings.statsfile v.2) ∧
                      hc = report_lines (fo_filtered fo) tables plots) as Hrep.
  { intros plots hc Hhc.
    apply html_content_inv in Hhc as (f' & files & tables & Hf' & Hfiles & _ & Htab & ->).
    rewrite Hflt in Hf'. injection Hf' as <-. exists tables. split; [|done].
    rewrite Hlen, <-(Forall2_length _ _ _ Htab).
    apply length_mapM in Hfiles. rewrite <-Hfiles. by destruct (fo_filtered fo). }
  assert (aggregate_writes (stats_and_filter E df st).1 =
            ([df], aggregate_path st EmptyString) ::
            (if fo_filtered fo then [([v.1], aggregate_path st "_post_filtering")] else []))
    as Hagg.
  { unfold aggregate_writes. destruct (fo_filtered fo).
    - destruct H as (p1 & Hp1 & _ & ->). apply make_stats_inv in Hp1.
      change (Settings.barcoded (apply_outcome _ _)) with (Settings.barcoded st) in Hp1.
      rewrite omap_app.
      destruct (Settings.barcoded st);
        destruct Hp0 as [_ ->], Hp1 as [_ ->]; reflexivity.
    - destruct H as [_ ->].
      destruct (Settings.barcoded st); destruct Hp0 as [_ ->]; reflexivity. }
  split; [done|]. split; [done|]. split; [done|]. intros Hf.
  rewrite Hf in *. split; [by rewrite Hagg|]. split.
  - intros Hb. destruct H as [_ ->]. rewrite Hb in Hp0. by destruct Hp0 as [_ ->].
  - intros plots hc Hhc. destruct (Hrep plots hc Hhc) as (tables & _ & ->).
    unfold report_lines. cbn. eauto.
Qed.

Lemma statistics_files_witness :
  aggregate_writes (stats_and_filter (demo_env false) demo_reads
                      (Settings.mk (demo_args false) "png" None "out/run_" [] None None None)).1
  = [([demo_reads], "out/run_NanoStats.txt")].
Proof.
  destruct (statistics_files (demo_env false) demo_reads
              (Settings.mk (demo_args false) "png" None "out/run_" [] None None None)
              _ eq_refl) as (f & Hf & _ & H & _).
  injection Hf as <-. exact H.
Defined.

Lemma barcode_body_events E df b acc :
  Always plotting_event (barcode_body E df b acc).
Proof.
  destruct acc as [plots st]. unfold barcode_body. cbv zeta.
  repeat always_step ltac:(idtac; by cbn).
  eapply Always_weaken; [|apply make_plots_events]. by intros ev [? _].
Qed.

(** The plotting stage only logs, writes notices and calls nanoplotter. *)
Lemma plot_stage_events E df st : Always plotting_event (plot_stage E df st).
Proof.
  unfold plot_stage. destruct (Settings.barcoded st).
  - apply Always_bind; [apply Always_silent, getitem_silent|]. intros col _.
    apply Always_for_each. intros. apply barcode_body_events.
  - apply Always_bind; [|intros; by apply Always_silent].
    eapply Always_weaken; [|apply make_plots_events]. by intros ev [? _].
Qed.

Lemma plotting_no_stats t : Forall plotting_event t → stats_writes t = [].
Proof.
  induction 1 as [|ev t Hev _ IH]; [done|].
  unfold stats_writes in *. cbn [omap list_omap]. rewrite IH.
  by destruct ev as [| | | | |[]].
Qed.

(** C7, as the code has it. In barcode mode the barcode breakdown is
    written by every call of [make_stats]: once before filtering, over the
    dataset before filtering, and once more after filtering when the
    filtering stage reported [filtered], over the filtered dataset and to
    the same path [<path>NanoStats_barcoded.txt], so that one breakdown file
    exists for the run. Each breakdown covers every label of its dataset,
    whatever its number of rows, and the plotting stage writes no
    statistics: the breakdown is not written per retained label. *)
Theorem barcode_breakdown_per_stage E df st v :
  Settings.barcoded st = true →
  (stats_and_filter E df st).2 = inr v →
  ∃ f,
    Settings.filtered v.2 = Some f ∧
    breakdown_writes (stats_and_filter E df st).1 =
      breakdown_of st df :: (if f then [breakdown_of st v.1] else []) ∧
    Forall (λ w, w.1.2 = breakdown_path st ∧ w.2 = labels (if f then v.1 else df) ∨
                 w = breakdown_of st df)
           (breakdown_writes (stats_and_filter E df st).1) ∧
    (∀ df' st', stats_writes (plot_stage E df' st').1 = []).
Proof.
  intros Hb H.
  apply stats_and_filter_inv in H as (p0 & fo & Hp0 & Hfo & Hflt & _ & _ & _ & H).
  exists (fo_filtered fo). split; [done|].
  apply make_stats_inv in Hp0. rewrite Hb in Hp0. destruct Hp0 as [_ Hw0].
  assert (breakdown_writes (stats_and_filter E df st).1 =
            breakdown_of st df :: (if fo_filtered fo then [breakdown_of st v.1] else []))
    as Hbrk.
  { unfold breakdown_writes. destruct (fo_filtered fo).
    - destruct H as (p1 & Hp1 & _ & ->). apply make_stats_inv in Hp1.
      change (Settings.barcoded (apply_outcome _ _)) with (Settings.barcoded st) in Hp1.
      rewrite Hb in Hp1. destruct Hp1 as [_ ->]. by rewrite Hw0.
    - destruct H as [_ ->]. by rewrite Hw0. }
  split; [done|]. split.
  - rewrite Hbrk. destruct (fo_filtered fo); repeat constructor; by eauto.
  - intros df' st'. apply plotting_no_stats, plot_stage_events.
Qed.

Lemma barcode_breakdown_per_stage_witness :
  breakdown_writes (stats_and_filter (demo_env false) demo_reads
                      (Settings.mk (demo_args true) "png" None "out/run_" [] None None None)).1
  = [breakdown_of (Settings.mk (demo_args true) "png" None "out/run_" [] None None None)
       demo_reads].
Proof.
  destruct (barcode_breakdown_per_stage (demo_env false) demo_reads
              (Settings.mk (demo_args true) "png" None "out/run_" [] None None None)
              _ eq_refl eq_refl) as (f & Hf & H & _).
  injection Hf as <-. exact H.
Defined.

(** C7, as stated, fails: in a barcode run whose filter applied, the
    breakdown is written twice, once per statistics stage, the second time
    over the first. *)
Lemma barcode_breakdown_written_twice :
  (main (demo_env true) (demo_args true)).2 = inr () ∧
  (λ w, w.1.2) <$> breakdown_writes (main (demo_env true) (demo_args true)).1
  = ["out/run_NanoStats_barcoded.txt"; "out/run_NanoStats_barcoded.txt"] ∧
  length (breakdown_writes (main (demo_env true) (demo_args true)).1) ≠ 1.
Proof. split; [by vm_compute|]. split; [by vm_compute|]. by vm_compute. Qed.



(** ** The driver *)

Lemma handler_eq e :
  handler e = (Logging_error e :: (Stdout_print <$> crash_message), inl e).
Proof. reflexivity. Qed.

Lemma stdout_app t1 t2 : stdout (t1 ++ t2) = stdout t1 ++ stdout t2.
Proof. unfold stdout. by rewrite omap_app. Qed.

Lemma stderr_app t1 t2 : stderr (t1 ++ t2) = stderr t1 ++ stderr t2.
Proof. unfold stderr. by rewrite omap_app. Qed.

Lemma log_errors_app t1 t2 : log_errors (t1 ++ t2) = log_errors t1 ++ log_errors t2.
Proof. unfold log_errors. by rewrite omap_app. Qed.

(** C5, as the code has it. When a stage of the run raises an exception,
    [main] logs the exception, prints the fixed message, line by line, to
    the standard output, writes nothing more to the standard error, and
    raises the same exception again; a run that returns is left as it is. *)
Theorem main_reports_failure E args :
  match (run E args).2 with
  | inl e =>
      main E args =
        ((run E args).1 ++ Logging_error e :: (Stdout_print <$> crash_message), inl e) ∧
      log_errors (main E args).1 = log_errors (run E args).1 ++ [e] ∧
      stdout (main E args).1 = stdout (run E args).1 ++ crash_message ∧
      stderr (main E args).1 = stderr (run E args).1
  | inr _ => main E args = run E args
  end.
Proof.
  unfold main, try_except. destruct (run E args) as [t [e|[]]]; [|done].
  cbn [fst snd]. rewrite handler_eq. cbn [fst snd].
  split; [done|]. rewrite log_errors_app, stdout_app, stderr_app.
  cbn. by rewrite app_nil_r.
Qed.

(** C5, as stated, fails: the output directory cannot be created, the
    exception is raised again, and the message is on the standard output
    while the standard error is empty. *)
Lemma crash_message_not_on_stderr :
  (main failing_env (demo_args false)).2 = inl (External "Permission denied") ∧
  log_errors (main failing_env (demo_args false)).1 = [External "Permission denied"] ∧
  stdout (main failing_env (demo_args false)).1 = crash_message ∧
  stderr (main failing_env (demo_args false)).1 = [] ∧
  crash_message ≠ [].
Proof. by vm_compute. Qed.

(** C6, on a barcode run. The dataset has six reads of BC02 and then one
    read of BC01. The report of the run is written under the path of the
    last label, BC01, which was skipped, and not under the startup path;
    the same run without barcode mode writes it under the startup path. *)
Theorem report_named_after_last_label :
  (main (demo_env false) (demo_args true)).2 = inr () ∧
  files_written (main (demo_env false) (demo_args true)).1
    = ["out/run_BC01_NanoPlot-report.html"] ∧
  path_join (Args.outdir (demo_args true)) (Args.prefix (demo_args true))
    +:+ "NanoPlot-report.html" = "out/run_NanoPlot-report.html" ∧
  labels demo_frame = [CStr "BC02"; CStr "BC01"] ∧
  skipped demo_frame = [CStr "BC01"] ∧
  files_written (main (demo_env false) (demo_args false)).1
    = ["out/run_NanoPlot-report.html"].
Proof. by vm_compute. Qed.

(** ** The barcode split *)

Lemma unique_from_elem seen l x : x ∈ unique_from seen l ↔ x ∈ l ∧ x ∉ seen.
Proof.
  revert seen. induction l as [|y l IH]; intros seen; cbn [unique_from].
  - split; [by intros ?%elem_of_nil|by intros [?%elem_of_nil _]].
  - case_bool_decide as Hy.
    + rewrite IH, elem_of_cons. split; [tauto|]. intros [[->|Hx] Hs]; tauto.
    + rewrite !elem_of_cons, IH, not_elem_of_cons.
      destruct (decide (x = y)) as [->|Hne]; tauto.
Qed.

Lemma unique_from_NoDup seen l : NoDup (unique_from seen l).
Proof.
  revert seen. induction l as [|y l IH]; intros seen; cbn [unique_from]; [constructor|].
  case_bool_decide; [apply IH|]. apply NoDup_cons. split; [|apply IH].
  rewrite unique_from_elem, not_elem_of_cons. tauto.
Qed.

Lemma unique_elem l x : x ∈ unique l ↔ x ∈ l.
Proof. unfold unique. rewrite unique_from_elem, elem_of_nil. tauto. Qed.

Lemma unique_NoDup l : NoDup (unique l).
Proof. apply unique_from_NoDup. Qed.

Lemma sum_list_indicator {A} `{EqDecision A} (x : A) (l : list A) :
  NoDup l → x ∈ l → sum_list ((λ b, if decide (x = b) then 1 else 0) <$> l) = 1.
Proof.
  induction 1 as [|y l Hy Hnd IH]; [by intros ?%elem_of_nil|].
  rewrite elem_of_cons. cbn. intros [->|Hin].
  - rewrite decide_True by done.
    assert (sum_list ((λ b, if decide (y = b) then 1 else 0) <$> l) = 0) as ->; [|done].
    clear IH Hnd. induction l as [|z l IH]; [done|]. cbn.
    rewrite decide_False by set_solver. rewrite IH; [done|set_solver].
  - rewrite decide_False by set_solver. by rewrite IH.
Qed.

Lemma sum_list_fmap_add {A} (f g : A → nat) l :
  sum_list ((λ b, f b + g b) <$> l) = sum_list (f <$> l) + sum_list (g <$> l).
Proof. induction l as [|x l IH]; [done|]. cbn. rewrite IH. lia. Qed.

(** The rows of the labels add up to the rows of the dataset. *)
Lemma label_rows_sum df : sum_list (label_rows df <$> labels df) = len df.
Proof.
  unfold label_rows, label_frame, len, labels, column. cbn [rows].
  assert (∀ rs : list (gmap string Cell),
            (∀ r, r ∈ rs → cell "barcode" r ∈ unique (cell "barcode" <$> rows df)) →
            sum_list ((λ b, length (filter (λ r, cell "barcode" r = b) rs))
                        <$> unique (cell "barcode" <$> rows df)) = length rs) as H.
  { induction rs as [|r rs IH]; intros Hin.
    - clear Hin. generalize (unique (cell "barcode" <$> rows df)). intros l.
      induction l as [|b l IHl]; [done|]. rewrite fmap_cons. simpl in *. by rewrite IHl.
    - cbn [length]. rewrite <-IH by (intros r' Hr'; apply Hin; by right).
      etrans; [|apply (f_equal2 Nat.add
                         (sum_list_indicator (cell "barcode" r)
                            (unique (cell "barcode" <$> rows df))
                            (unique_NoDup _) (Hin r ltac:(by left)))
                         eq_refl)].
      rewrite <-sum_list_fmap_add. f_equal. apply list_fmap_ext. intros _ b _.
      rewrite filter_cons. repeat case_decide; done || congruence. }
  apply H. intros r Hr. apply unique_elem. by apply list_elem_of_fmap_2.
Qed.

Lemma sum_list_filter_split {A} (f : A → nat) (P Q : A → Prop)
    `{!∀ x, Decision (P x)} `{!∀ x, Decision (Q x)} l :
  (∀ x, P x ↔ ¬ Q x) →
  sum_list (f <$> filter P l) + sum_list (f <$> filter Q l) = sum_list (f <$> l).
Proof.
  intros HPQ. induction l as [|x l IH]; [done|]. rewrite !filter_cons. cbn.
  destruct (decide (P x)) as [HP|HP], (decide (Q x)) as [HQ|HQ]; cbn; try lia.
  - by apply HPQ in HP.
  - exfalso. apply HP, HPQ. done.
Qed.

Lemma concat_fmap_if {A B} (P : A → Prop) `{!∀ x, Decision (P x)} (g : A → list B) l :
  concat ((λ b, if decide (P b) then g b else []) <$> l) = concat (g <$> filter P l).
Proof.
  induction l as [|x l IH]; [done|]. rewrite filter_cons. cbn. rewrite IH.
  by destruct (decide (P x)).
Qed.

Lemma concat_fmap_unless {A B} (P Q : A → Prop) `{!∀ x, Decision (P x)}
    `{!∀ x, Decision (Q x)} (g : A → B) l :
  (∀ x, P x ↔ ¬ Q x) →
  concat ((λ b, if decide (P b) then [] else [g b]) <$> l) = g <$> filter Q l.
Proof.
  intros HPQ. induction l as [|x l IH]; [done|]. rewrite filter_cons. cbn. rewrite IH.
  destruct (decide (P x)) as [HP|HP], (decide (Q x)) as [HQ|HQ]; try done.
  - by apply HPQ in HP.
  - exfalso. apply HP, HPQ. done.
Qed.

Lemma elem_of_concat {A} (x : A) (ls : list (list A)) :
  x ∈ concat ls ↔ ∃ l, x ∈ l ∧ l ∈ ls.
Proof.
  induction ls as [|l ls IH]; cbn.
  - split; [by intros ?%elem_of_nil|by intros (l & _ & ?%elem_of_nil)].
  - rewrite elem_of_app, IH. split.
    + intros [Hx|(l' & Hx & Hl')]; [exists l|exists l'];
        (split; [done|]); [by left|by right].
    + intros (l' & Hx & [->|Hl']%elem_of_cons); [by left|right; by exists l'].
Qed.

Lemma omap_concat {A B} (f : A → option B) (ls : list (list A)) :
  omap f (concat ls) = concat ((λ l : list A, omap f l) <$> ls).
Proof. induction ls as [|l ls IH]; [done|]. cbn. by rewrite omap_app, IH. Qed.

Lemma label_settings_base st st0 s :
  same_base st st0 →
  Settings.set_title (Some s)
    (Settings.set_path
       (path_join (Settings.outdir st0) (Settings.prefix st0 +:+ s +:+ "_")) st0)
  = label_settings st (CStr s).
Proof.
  destruct st, st0. unfold same_base, label_settings, Settings.outdir, Settings.prefix.
  cbn. by intros (-> & -> & -> & -> & -> & ->).
Qed.

Lemma same_base_set_path st st0 p : same_base st st0 → same_base st (Settings.set_path p st0).
Proof. by destruct st, st0. Qed.

Lemma same_base_label st st0 b : same_base st st0 → same_base st (label_settings st0 b).
Proof. by destruct st, st0. Qed.

Lemma same_base_refl st : same_base st st.
Proof. by repeat split. Qed.

(** One turn of the loop, when it returns. *)
Lemma barcode_body_inv E df st b plots0 st0 v :
  same_base st st0 →
  contains df "barcode" = true →
  (barcode_body E df b (plots0, st0)).2 = inr v →
  (∃ s, b = CStr s) ∧ same_base st v.2 ∧
  (barcode_body E df b (plots0, st0)).1 = turn_trace E df st b ∧
  if decide (5 < label_rows df b)
  then ∃ new, (label_run E df st b).2 = inr new ∧ v.1 = plots0 ++ new
  else v.1 = plots0.
Proof.
  intros Hbase Hc. unfold barcode_body. cbv zeta.
  destruct b as [| | |s|]; try done.
  cbn -[make_plots barcode_frame path_join].
  rewrite (barcode_frame_ok _ _ Hc), matching_frame_str.
  cbn -[make_plots path_join len label_frame].
  rewrite (label_settings_base st st0 s Hbase).
  unfold turn_trace, label_rows, label_run.
  destruct (decide (5 < len (label_frame df (CStr s)))) as [Hn|Hn].
  - rewrite (bool_decide_eq_true_2 _ Hn).
    destruct (make_plots E _ _) as [t [e|new]] eqn:Hrun; [done|].
    cbn -[len label_frame]. intros [= <-]. cbn -[len label_frame]. rewrite app_nil_r.
    split; [by eauto|]. split; [by apply same_base_label, same_base_refl|].
    split; [done|]. destruct (decide _) as [_|Hn']; [by exists new|by destruct Hn'].
  - rewrite (bool_decide_eq_false_2 _ Hn).
    cbn -[len label_frame]. intros [= <-]. cbn -[len label_frame].
    split; [by eauto|]. split; [by apply same_base_set_path|].
    split; [done|]. destruct (decide _) as [Hn'|_]; [by destruct Hn|done].
Qed.

(** The loop over the labels, when it returns. *)
Lemma barcode_loop_inv E df st l plots0 st0 v :
  same_base st st0 →
  contains df "barcode" = true →
  (for_each l (barcode_body E df) (plots0, st0)).2 = inr v →
  Forall (λ b, ∃ s, b = CStr s) l ∧
  (for_each l (barcode_body E df) (plots0, st0)).1 = concat (turn_trace E df st <$> l) ∧
  Forall (λ b, ∃ ps, (label_run E df st b).2 = inr ps)
         (filter (λ b, 5 < label_rows df b) l) ∧
  v.1 = plots0 ++
        concat ((λ b, rendered E (calls (label_run E df st b).1))
                  <$> filter (λ b, 5 < label_rows df b) l).
Proof.
  intros Hbase Hc. revert plots0 st0 Hbase. induction l as [|b l IH]; intros plots0 st0 Hbase.
  - cbn. intros [= <-]. cbn. by rewrite app_nil_r.
  - cbn [for_each]. intros H. apply bind_inv_ok in H as ([plots1 st1] & Hb & H & ->).
    apply (barcode_body_inv E df st) in Hb as (Hs & Hbase1 & -> & Hplots); [|done..].
    cbn [fst snd] in *.
    destruct (IH _ _ Hbase1 H) as (Hall & -> & Hruns & ->).
    split; [by constructor|]. split; [done|]. rewrite filter_cons.
    destruct (decide (5 < label_rows df b)) as [Hn|Hn].
    + destruct Hplots as (new & Hnew & ->). split; [constructor; by eauto|].
      cbn. rewrite <-app_assoc. do 2 f_equal. by apply make_plots_Acc.
    + by rewrite Hplots.
Qed.

Lemma quiet_no_stderr t : Forall quiet_event t → stderr t = [].
Proof.
  induction 1 as [|ev t Hev _ IH]; [done|].
  unfold stderr in *. cbn [omap list_omap]. rewrite IH. by destruct ev.
Qed.

Lemma label_run_stderr E df st b : stderr (label_run E df st b).1 = [].
Proof.
  apply quiet_no_stderr. eapply Forall_impl; [apply make_plots_events|].
  by intros ev [_ ?].
Qed.

Lemma label_run_titles E df st b c :
  c ∈ calls (label_run E df st b).1 → call_title c = Some (label_str b).
Proof.
  intros Hin.
  pose proof (Always_calls (titled (label_settings st b))
                (λ c, call_title c = Some (label_str b)) _
                (λ c H, H) (make_plots_titled E (label_frame df b) (label_settings st b)))
    as Hall.
  rewrite Forall_forall in Hall. by apply Hall.
Qed.

Lemma label_run_renders E df st b ps :
  (label_run E df st b).2 = inr ps → ∃ c, c ∈ calls (label_run E df st b).1.
Proof.
  intros Hps. destruct (make_plots_Pre E (label_frame df b) (label_settings st b)) as [_ Hall].
  specialize (Hall ps Hps). rewrite selected_families_eq in Hall.
  unfold label_run, families in *.
  destruct (calls _) as [|c cs]; [done|]. exists c. by left.
Qed.

(** The events of the loop, label by label. *)
Lemma plot_stage_barcoded_inv E df st v :
  Settings.barcoded st = true →
  (plot_stage E df st).2 = inr v →
  contains df "barcode" = true ∧
  Forall (λ b, ∃ s, b = CStr s) (labels df) ∧
  (plot_stage E df st).1 = concat (turn_trace E df st <$> labels df) ∧
  Forall (λ b, ∃ ps, (label_run E df st b).2 = inr ps) (retained df) ∧
  v.1 = concat ((λ b, rendered E (calls (label_run E df st b).1)) <$> retained df).
Proof.
  intros Hb. unfold plot_stage. rewrite Hb. intros H.
  apply bind_inv_ok in H as (col & Hcol & H & ->).
  apply getitem_inv in Hcol as [-> Hc]. rewrite getitem_silent.
  apply (barcode_loop_inv E df st) in H as (Hs & -> & Hruns & ->);
    [|apply same_base_refl|done].
  done.
Qed.

(** C2. In barcode mode, when the plotting stage returns: every label is
    a string; the calls into nanoplotter are those of one run of
    [make_plots] per label with more than 5 rows, in the order of first
    appearance, on the rows of the label and with its path and title, and
    the plots returned are theirs; the labels with at most 5 rows get no
    call, and each gets its notice on the standard error and its log
    record, and nothing else is written there; the rows of the labels with
    plots and the rows of the labels without add up to the rows of the
    dataset. *)
Theorem barcode_split_policy E df st v :
  Settings.barcoded st = true →
  (plot_stage E df st).2 = inr v →
  Forall (λ b, ∃ s, b = CStr s) (labels df) ∧
  (∀ b, b ∈ labels df →
     (b ∈ retained df ↔ 5 < label_rows df b) ∧ (b ∈ skipped df ↔ label_rows df b ≤ 5)) ∧
  calls (plot_stage E df st).1 =
    concat ((λ b, calls (label_run E df st b).1) <$> retained df) ∧
  v.1 = concat ((λ b, rendered E (calls (label_run E df st b).1)) <$> retained df) ∧
  (∀ b, b ∈ labels df →
     (∃ c, c ∈ calls (plot_stage E df st).1 ∧ call_title c = Some (label_str b))
     ↔ 5 < label_rows df b) ∧
  stderr (plot_stage E df st).1 = skip_notice <$> skipped df ∧
  Forall (λ b, skip_log b ∈ log_infos (plot_stage E df st).1) (skipped df) ∧
  sum_list (label_rows df <$> retained df) + sum_list (label_rows df <$> skipped df)
    = len df.
Proof.
  intros Hb H.
  destruct (plot_stage_barcoded_inv E df st v Hb H) as (Hc & Hs & Ht & Hruns & Hv).
  assert (calls (plot_stage E df st).1 =
            concat ((λ b, calls (label_run E df st b).1) <$> retained df)) as Hcalls.
  { rewrite Ht. unfold calls at 1. rewrite omap_concat, <-list_fmap_compose.
    unfold retained. rewrite <-concat_fmap_if. f_equal. apply list_fmap_ext.
    intros _ b _. unfold turn_trace. cbn. by destruct (decide _). }
  split; [done|]. split.
  { intros b Hin. unfold retained, skipped. rewrite !list_elem_of_filter. tauto. }
  split; [done|]. split; [done|]. split.
  { intros b Hin. rewrite Hcalls. split.
    - intros (c & Hin_c & Htitle).
      apply elem_of_concat in Hin_c as (cs & Hc_cs & Hcs).
      apply list_elem_of_fmap in Hcs as (b' & -> & Hb').
      rewrite (label_run_titles E df st b' c Hc_cs) in Htitle.
      apply list_elem_of_filter in Hb' as [Hn Hb'].
      rewrite Forall_forall in Hs.
      destruct (Hs b Hin) as [s ->], (Hs b' Hb') as [s' ->].
      cbn in Htitle. by injection Htitle as ->.
    - intros Hn.
      assert (b ∈ retained df) as Hret by (by apply list_elem_of_filter).
      rewrite Forall_forall in Hruns. destruct (Hruns b Hret) as [ps Hps].
      destruct (label_run_renders E df st b ps Hps) as [c Hin_c].
      exists c. split; [|by eapply label_run_titles].
      apply elem_of_concat. exists (calls (label_run E df st b).1).
      split; [done|]. by apply (list_elem_of_fmap_2 (λ b, calls (label_run E df st b).1)). }
  split.
  { rewrite Ht. unfold stderr at 1. rewrite omap_concat, <-list_fmap_compose.
    unfold skipped.
    rewrite <-(concat_fmap_unless (λ b, 5 < label_rows df b) (λ b, label_rows df b ≤ 5)
                 skip_notice (labels df)) by (intros; lia).
    f_equal. apply list_fmap_ext. intros _ b _. unfold turn_trace. cbn.
    destruct (decide _); [|done]. apply label_run_stderr. }
  split.
  { apply Forall_forall. intros b Hin. apply list_elem_of_filter in Hin as [Hn Hin].
    rewrite Ht. apply list_elem_of_omap. exists (Logging_info (skip_log b)).
    split; [|done]. apply elem_of_concat. exists (turn_trace E df st b).
    split; [|by apply list_elem_of_fmap_2].
    unfold turn_trace. rewrite decide_False by lia. set_solver. }
  unfold retained, skipped.
  rewrite (sum_list_filter_split _ _ (λ b, label_rows df b ≤ 5)) by (intros; lia).
  apply label_rows_sum.
Qed.

Lemma barcode_split_policy_witness :
  stderr (plot_stage (demo_env false) demo_frame (demo_settings true false)).1
  = skip_notice <$> skipped demo_frame.
Proof.
  destruct (barcode_split_policy (demo_env false) demo_frame (demo_settings true false)
              _ eq_refl eq_refl) as (_ & _ & _ & _ & _ & H & _).
  exact H.
Defined.

(** ** The dataset of the run *)

Lemma head_filter_split {A} (P : A → Prop) `{!∀ x, Decision (P x)} l x :
  head (filter P l) = Some x →
  ∃ l1 l2, l = l1 ++ x :: l2 ∧ Forall (λ y, ¬ P y) l1 ∧ P x.
Proof.
  induction l as [|y l IH]; [done|]. rewrite filter_cons.
  destruct (decide (P y)) as [Hy|Hy].
  - intros [= <-]. exists [], l. by repeat split.
  - intros Hh. destruct (IH Hh) as (l1 & l2 & -> & Hl1 & Hx).
    exists (y :: l1), l2. repeat split; [|done]. by constructor.
Qed.

Lemma given_inv {A} (o : option (list A)) :
  given o = true → ∃ x l, o = Some (x :: l).
Proof. destruct o as [[|x l]|]; try done. eauto. Qed.

(** The name and the files picked from a table of sources belong to one
    source, the first that was given. *)
Lemma first_source (tbl : list (string * option (list string))) source files :
  (fst <$> filter (λ ns, given ns.2 = true) tbl) !! 0 = Some source →
  omap snd (filter (λ ns, given ns.2 = true) tbl) !! 0 = Some files →
  ∃ l1 l2, tbl = l1 ++ (source, Some files) :: l2 ∧
           Forall (λ ns, given ns.2 = false) l1 ∧ files ≠ [].
Proof.
  destruct (filter _ tbl) as [|[n o] k] eqn:Hf; [done|].
  assert (head (filter (λ ns, given ns.2 = true) tbl) = Some (n, o)) as Hh by by rewrite Hf.
  apply head_filter_split in Hh as (l1 & l2 & -> & Hl1 & Hg). cbn in Hg.
  apply given_inv in Hg as (x & l & ->). cbn. intros [= <-] [= <-].
  exists l1, l2. repeat split; [|done].
  eapply Forall_impl; [done|]. intros [n' o'] H. cbn in *. by destruct (given o').
Qed.

Lemma no_source (tbl : list (string * option (list string))) :
  Forall (λ ns, given ns.2 = false) tbl →
  filter (λ ns, given ns.2 = true) tbl = [].
Proof.
  induction 1 as [|ns l Hns _ IH]; [done|]. rewrite filter_cons, IH.
  rewrite decide_False; [done|]. by rewrite Hns.
Qed.

(** X1. When [load_data] returns, the dataset is the one the loader
    returned. A stored snapshot takes precedence: with [--pickle] only
    [pickle.load] is called. Otherwise [get_input] is called once, with the
    name and the files of one and the same source, the first one given in
    the order of the table. The copies asked for by [--store] and [--raw]
    are made next, of the dataset as loaded. *)
Theorem load_data_source E args st df :
  (load_data E args st).2 = inr df →
  match given_name (Args.pickle args) with
  | Some file =>
      pickle_load E file = inr df ∧
      (load_data E args st).1 = Called (Pickle_load file) :: copies args st df
  | None =>
      ∃ source files l1 l2,
        source_table args = l1 ++ (source, Some files) :: l2 ∧
        Forall (λ ns, given ns.2 = false) l1 ∧ files ≠ [] ∧
        get_input E source files (Args.threads args) (Args.readtype args) "simple"
          (Args.barcoded args) = inr df ∧
        (load_data E args st).1 =
          Called (Get_input source files (Args.threads args) (Args.readtype args)
                    "simple" (Args.barcoded args)) :: copies args st df
  end.
Proof.
  unfold load_data. cbv zeta. fold (source_table args). unfold copies.
  destruct (given_name (Args.pickle args)) as [file|].
  - destruct (pickle_load E file) as [msg|d] eqn:Hload; [done|]. cbn.
    destruct (Args.store args); cbn.
    + destruct (file_open E _ _) as [|[]]; [done|]. cbn.
      destruct (pickle_dump E d _) as [|[]]; [done|]. cbn.
      destruct (Args.raw args); cbn.
      * destruct (to_csv E d _) as [|[]]; [done|]. cbn. by intros [= <-].
      * by intros [= <-].
    + destruct (Args.raw args); cbn.
      * destruct (to_csv E d _) as [|[]]; [done|]. cbn. by intros [= <-].
      * by intros [= <-].
  - unfold index.
    destruct ((fst <$> filter _ (source_table args)) !! 0) as [source|] eqn:Hs; [|done].
    cbn -[source_table].
    destruct (omap snd (filter _ (source_table args)) !! 0) as [files|] eqn:Hfs; [|done].
    cbn -[source_table].
    destruct (first_source _ _ _ Hs Hfs) as (l1 & l2 & Htbl & Hl1 & Hne).
    destruct (get_input E source files _ _ _ _) as [msg|d] eqn:Hload; [done|].
    cbn -[source_table]. intros H. exists source, files, l1, l2.
    split; [done|]. split; [done|]. split; [done|]. revert H.
    destruct (Args.store args); cbn.
    + destruct (file_open E _ _) as [|[]]; [done|]. cbn.
      destruct (pickle_dump E d _) as [|[]]; [done|]. cbn.
      destruct (Args.raw args); cbn.
      * destruct (to_csv E d _) as [|[]]; [done|]. cbn. by intros [= <-].
      * by intros [= <-].
    + destruct (Args.raw args); cbn.
      * destruct (to_csv E d _) as [|[]]; [done|]. cbn. by intros [= <-].
      * by intros [= <-].
Qed.

Lemma load_data_source_witness :
  (load_data (demo_env false) (demo_args false)
     (Settings.mk (demo_args false) "png" None "out/run_" [] None None None)).1
  = [Called (Get_input "fastq" ["reads.fastq"] 4 "1D" "simple" false)].
Proof.
  destruct (load_data_source (demo_env false) (demo_args false)
              (Settings.mk (demo_args false) "png" None "out/run_" [] None None None)
              _ eq_refl) as (source & files & l1 & l2 & Htbl & Hl1 & _ & _ & H).
  destruct l1 as [|x l1]; [|by inversion Hl1].
  injection Htbl as <- <-. exact H.
Defined.

(** X2. Without a snapshot and without any source given ([--pickle] with
    an empty name gives both), [load_data] raises [IndexError] before
    calling any collaborator. *)
Theorem load_data_no_source E args st :
  given_name (Args.pickle args) = None →
  Forall (λ ns, given ns.2 = false) (source_table args) →
  load_data E args st = ([], inl IndexError).
Proof.
  intros Hp Hs. unfold load_data. cbv zeta. fold (source_table args).
  rewrite Hp, (no_source _ Hs). reflexivity.
Qed.

Lemma load_data_no_source_witness :
  load_data (demo_env false)
    (Args.mk 4 false false false "out" "run_" None None false None false false false None
       None "1D" false "#4CB391" "png" ["kde"; "dot"] false false false None
       (QArith_base.Qmake 1 1) 100 None None None None None None None None
       (Some EmptyString))
    (Settings.mk (demo_args false) "png" None "out/run_" [] None None None)
  = ([], inl IndexError).
Proof. apply load_data_no_source; [reflexivity|by repeat constructor]. Defined.

(** ** More on [make_plots] *)

Ltac inv_ok H :=
  lazymatch type of H with
  | (mbind _ _).2 = inr _ =>
      let a := fresh "a" in
      let H1 := fresh "Ha" in
      let H2 := fresh "Hk" in
      apply bind_inv_ok in H as (a & H1 & H2 & _);
      cbv beta in H2; inv_ok H1; inv_ok H2
  | (getitem _ _).2 = inr _ => apply getitem_inv in H as [-> ?]
  | (length_filtered _).2 = inr _ => apply length_filtered_inv in H as (-> & ? & ?)
  | (setting _ _).2 = inr _ => apply setting_inv in H
  | _ => idtac
  end.

Lemma make_plots_length_filter E df st plots :
  (make_plots E df st).2 = inr plots → contains df "length_filter" = true.
Proof. intros H. unfold make_plots in H. cbv zeta in H. inv_ok H. assumption. Qed.

(** X3. The base columns are needed: [make_plots] returns only on a
    dataset that has [lengths] and [length_filter]; and when the dataset
    has [quals] or [percentIdentity] (or [start_time]), only with
    [lengths_pointer] naming a column of the dataset and [logBool] set (or
    [logBool] set). *)
Theorem make_plots_needs_base E df st plots :
  (make_plots E df st).2 = inr plots →
  contains df "lengths" = true ∧
  contains df "length_filter" = true ∧
  (contains df "quals" = true ∨ contains df "percentIdentity" = true →
     ∃ lp lb, Settings.lengths_pointer st = Some lp ∧ contains df lp = true ∧
              Settings.logBool st = Some lb) ∧
  (contains df "start_time" = true → ∃ lb, Settings.logBool st = Some lb).
Proof.
  intros H. unfold make_plots in H. cbv zeta in H. inv_ok H.
  split; [assumption|]. split; [assumption|]. split.
  - intros [Hq|Hp].
    + match goal with
      | Hb : (if contains df "quals" then _ else _).2 = inr _ |- _ =>
          rewrite Hq in Hb; cbv iota in Hb; inv_ok Hb
      end.
      eexists _, _. split; [eassumption|]. split; [|eassumption]. assumption.
    + match goal with
      | Hb : (if contains df "percentIdentity" then _ else _).2 = inr _ |- _ =>
          rewrite Hp in Hb; cbv iota in Hb; inv_ok Hb
      end.
      eexists _, _. split; [eassumption|]. split; [|eassumption]. assumption.
  - intros Ht.
    match goal with
    | Hb : (if contains df "start_time" then _ else _).2 = inr _ |- _ =>
        rewrite Ht in Hb; cbv iota in Hb; inv_ok Hb
    end.
    eexists. eassumption.
Qed.

Lemma make_plots_needs_base_witness :
  contains demo_frame "length_filter" = true.
Proof.
  exact (proj1 (proj2 (make_plots_needs_base (demo_env false) demo_frame
                         (demo_settings false false) _ eq_refl))).
Defined.

(** X4. On a dataset without the column [length_filter], [make_plots]
    calls no plotting function and does not return. *)
Theorem make_plots_without_length_filter E df st :
  contains df "length_filter" = false →
  calls (make_plots E df st).1 = [] ∧ ∀ plots, (make_plots E df st).2 ≠ inr plots.
Proof.
  intros Hf. split.
  - assert (length_filtered df = ([], inl (KeyError "length_filter"))) as Hlf.
    { unfold length_filtered, getitem. by rewrite Hf. }
    change (Silent (make_plots E df st)). unfold make_plots. cbv zeta.
    apply Silent_bind; [silent_step|intros].
    apply Silent_bind; [silent_step|intros].
    apply Silent_bind; [repeat silent_step|intros].
    rewrite Hlf. reflexivity.
  - intros plots H. apply make_plots_length_filter in H. congruence.
Qed.

Lemma make_plots_without_length_filter_witness :
  calls (make_plots (demo_env false) demo_reads (demo_settings false false)).1 = [].
Proof.
  exact (proj1 (make_plots_without_length_filter (demo_env false) demo_reads
                  (demo_settings false false) eq_refl)).
Defined.

Lemma input_ok_sized df st c : input_ok df st c → sized df c.
Proof.
  destruct c as [[]|[]|[]|[]]; unfold input_ok, sized; cbn [length_plots.array
    spatial_heatmap.array time_plots.df scatter.x scatter.y]; try done.
  - intros ->. unfold column, len. by rewrite length_fmap.
  - unfold pointed.
    destruct (family_of _) as [[]|]; try done;
      destruct (Settings.lengths_pointer st); cbn; intros [Hx ->]; try done;
      try (injection Hx as ->); try rewrite Hx; unfold column; by rewrite !length_fmap.
  - intros ->. unfold column, len. by rewrite length_fmap.
Qed.

(** X5. In every call of [make_plots] the two series of a scatter have
    the same number of rows; the read-length plot is given one value per
    row that passed the filter, never more than the dataset has, and the
    channel heatmap one value per row of the dataset. *)
Theorem make_plots_inputs_sized E df st :
  Forall (sized df) (calls (make_plots E df st).1) ∧ len (restrict df) ≤ len df.
Proof.
  split.
  - eapply Always_calls; [|apply make_plots_inputs]. intros c. apply input_ok_sized.
  - unfold len, restrict. cbn. apply length_filter.
Qed.




(** ** More on [make_stats] *)

(** X7. [make_stats] logs its record once the aggregate file is written.
    Outside barcode mode it never looks at the column [barcode] and returns
    the path of the aggregate file, whatever the columns of the dataset. In
    barcode mode, on a dataset without the column [barcode], it raises
    [KeyError] after the aggregate file was written and logged. *)
Theorem make_stats_barcode_column E df st suffix :
  write_stats E [df] (aggregate_path st suffix) None = inr () →
  (Settings.barcoded st = false →
     make_stats E df st suffix =
       ([Called (Write_stats [df] (aggregate_path st suffix) None);
         Logging_info "Calculated statistics"], inr (aggregate_path st suffix))) ∧
  (Settings.barcoded st = true → contains df "barcode" = false →
     make_stats E df st suffix =
       ([Called (Write_stats [df] (aggregate_path st suffix) None);
         Logging_info "Calculated statistics"], inl (KeyError "barcode"))).
Proof.
  intros Hw. unfold make_stats. cbv zeta. fold (aggregate_path st suffix). rewrite Hw.
  split.
  - by intros ->.
  - intros -> Hc. unfold getitem. by rewrite Hc.
Qed.

Lemma make_stats_barcode_column_witness :
  make_stats (demo_env false)
    (mkDataFrame ["lengths"] [row [("lengths", CInt 100)]])
    (demo_settings true false) EmptyString
  = ([Called (Write_stats [mkDataFrame ["lengths"] [row [("lengths", CInt 100)]]]
                "out/run_NanoStats.txt" None);
      Logging_info "Calculated statistics"], inl (KeyError "barcode")).
Proof.
  exact (proj2 (make_stats_barcode_column (demo_env false)
                  (mkDataFrame ["lengths"] [row [("lengths", CInt 100)]])
                  (demo_settings true false) EmptyString eq_refl) eq_refl eq_refl).
Defined.

Lemma cell_eqb_NaN_r a : cell_eqb a CNaN = false.
Proof. by destruct a. Qed.

Lemma cell_eqb_decide a b : a ≠ CNaN → cell_eqb a b = bool_decide (a = b).
Proof.
  intros Ha. destruct a, b; try done.
  all: cbn; symmetry; by apply bool_decide_eq_false_2.
Qed.

Lemma sum_list_zero {A} (l : list A) : sum_list ((λ _, 0) <$> l) = 0.
Proof. induction l as [|x l IH]; [done|]. cbn. by rewrite IH. Qed.

(** The rows the breakdown covers: those whose barcode is not missing. *)
Lemma matching_rows_sum df :
  sum_list ((λ b, len (matching_frame df b)) <$> labels df)
  = length (filter (λ r, cell "barcode" r ≠ CNaN) (rows df)).
Proof.
  unfold matching_frame, len, labels, column. cbn [rows].
  assert (∀ rs : list (gmap string Cell),
            (∀ r, r ∈ rs → cell "barcode" r ∈ unique (cell "barcode" <$> rows df)) →
            sum_list ((λ b, length (filter (λ r, cell_eqb (cell "barcode" r) b = true) rs))
                        <$> unique (cell "barcode" <$> rows df))
            = length (filter (λ r, cell "barcode" r ≠ CNaN) rs)) as H.
  { induction rs as [|r rs IH]; intros Hin.
    - apply sum_list_zero.
    - rewrite (filter_cons (λ r, cell "barcode" r ≠ CNaN)).
      destruct (decide (cell "barcode" r ≠ CNaN)) as [Hr|Hr].
      + cbn [length]. rewrite <-IH by (intros r' Hr'; apply Hin; by right).
        etrans; [|apply (f_equal2 Nat.add
                           (sum_list_indicator (cell "barcode" r)
                              (unique (cell "barcode" <$> rows df))
                              (unique_NoDup _) (Hin r ltac:(by left)))
                           eq_refl)].
        rewrite <-sum_list_fmap_add. f_equal. apply list_fmap_ext. intros _ b _.
        rewrite filter_cons, (cell_eqb_decide _ b Hr).
        repeat case_decide; try done; by case_bool_decide.
      + rewrite <-IH by (intros r' Hr'; apply Hin; by right).
        f_equal. apply list_fmap_ext. intros _ b _. rewrite filter_cons.
        destruct (decide (cell "barcode" r = CNaN)) as [->|]; [|done].
        by rewrite decide_False. }
  apply H. intros r Hr. apply unique_elem. by apply list_elem_of_fmap_2.
Qed.

(** X8. When [make_stats] returns in barcode mode, the breakdown it
    wrote lists every distinct barcode once, a missing barcode included,
    with one dataset per label; the datasets hold between them the rows
    whose barcode is not missing, each once, and the dataset of the missing
    barcode is empty. *)
Theorem breakdown_covers_labelled_rows E df st suffix p :
  Settings.barcoded st = true →
  (make_stats E df st suffix).2 = inr p →
  ∃ frames,
    breakdown_writes (make_stats E df st suffix).1
      = [(frames, breakdown_path st, labels df)] ∧
    frames = matching_frame df <$> labels df ∧
    NoDup (labels df) ∧
    (∀ b, b ∈ labels df ↔ b ∈ column df "barcode") ∧
    sum_list (len <$> frames)
      = length (filter (λ r, cell "barcode" r ≠ CNaN) (rows df)) ∧
    len (matching_frame df CNaN) = 0.
Proof.
  intros Hb Hp. apply make_stats_inv in Hp. rewrite Hb in Hp. destruct Hp as [_ Hw].
  exists (matching_frame df <$> labels df). split.
  { unfold breakdown_writes. by rewrite Hw. }
  split; [done|]. split; [apply unique_NoDup|]. split; [intros b; apply unique_elem|].
  split.
  - rewrite <-list_fmap_compose. apply matching_rows_sum.
  - unfold matching_frame, len. cbn.
    induction (rows df) as [|r rs IH]; [done|].
    rewrite filter_cons, decide_False; [done|]. by rewrite cell_eqb_NaN_r.
Qed.

Lemma breakdown_covers_labelled_rows_witness :
  ∃ frames,
    breakdown_writes (make_stats (demo_env false) demo_reads (demo_settings true false)
                        EmptyString).1
    = [(frames, "out/run_NanoStats_barcoded.txt", [CStr "BC02"; CStr "BC01"])].
Proof.
  destruct (breakdown_covers_labelled_rows (demo_env false) demo_reads
              (demo_settings true false) EmptyString _ eq_refl eq_refl)
    as (frames & H & _).
  exists frames. exact H.
Defined.

(** ** The files of the script *)

Lemma files_written_app t1 t2 :
  files_written (t1 ++ t2) = files_written t1 ++ files_written t2.
Proof. unfold files_written. by rewrite omap_app. Qed.


Lemma writes_app t1 t2 : writes (t1 ++ t2) = writes t1 ++ writes t2.
Proof. unfold writes. by rewrite omap_app. Qed.


Lemma no_file_writes t : Forall no_file t → writes t = [].
Proof.
  induction 1 as [|ev t Hev _ IH]; [done|].
  unfold writes in *. cbn [omap list_omap]. rewrite IH. by destruct ev.
Qed.

Lemma no_file_opened t : Forall no_file t → opened t = [].
Proof.
  induction 1 as [|ev t Hev _ IH]; [done|].
  unfold opened in *. cbn [omap list_omap]. rewrite IH. by destruct ev as [| | | | |[]].
Qed.

Lemma no_render_calls t : Forall no_render t → calls t = [].
Proof.
  induction 1 as [|ev t Hev _ IH]; [done|].
  unfold calls in *. cbn [omap list_omap]. rewrite IH. by destruct ev as [| | | | |[]].
Qed.

Lemma housekeeping_no_file ev : housekeeping ev → no_file ev.
Proof. by destruct ev as [| | | | |[]]. Qed.

Lemma housekeeping_no_render ev : housekeeping ev → no_render ev.
Proof. by destruct ev as [| | | | |[]]. Qed.

Lemma bind_trace {A B} (m : M A) (f : A → M B) :
  (m ≫= f).1 = m.1 ++ match m.2 with inr a => (f a).1 | inl _ => [] end.
Proof. destruct m as [t [e|a]]; unfold mbind, M_bind; cbn; by rewrite ?app_nil_r. Qed.

Lemma bind_result {A B} (m : M A) (f : A → M B) :
  (m ≫= f).2 = match m.2 with inr a => (f a).2 | inl e => inl e end.
Proof. by destruct m as [t [e|a]]. Qed.

Lemma Always_comprehension {A B} φ (f : A → M B) l :
  (∀ x, Always φ (f x)) → Always φ (comprehension f l).
Proof.
  intros Hf. induction l as [|x l IH]; [by apply Always_silent|].
  cbn [comprehension]. apply Always_bind; [apply Hf|]. intros y _.
  apply Always_bind; [apply IH|]. intros ys _. by apply Always_silent.
Qed.

Lemma plot_lines_housekeeping E plots acc : Always housekeeping (plot_lines E plots acc).
Proof.
  unfold plot_lines. apply Always_for_each. intros p hc.
  repeat always_step ltac:(idtac; exact I).
Qed.

Lemma html_content_housekeeping E plots st : Always housekeeping (html_content E plots st).
Proof.
  unfold html_content. cbv zeta. repeat always_step ltac:(idtac; exact I).
  all: apply plot_lines_housekeeping.
Qed.

Lemma make_stats_housekeeping E df st suffix : Always housekeeping (make_stats E df st suffix).
Proof.
  unfold make_stats. cbv zeta. repeat always_step ltac:(idtac; exact I).
  apply Always_comprehension. intros b. apply Always_silent, barcode_frame_silent.
Qed.

Lemma stats_and_filter_housekeeping E df st : Always housekeeping (stats_and_filter E df st).
Proof.
  unfold stats_and_filter.
  apply Always_bind; [apply make_stats_housekeeping|intros p0 _].
  apply Always_bind; [by apply Always_extern|intros [df1 fo] _].
  repeat always_step ltac:(idtac; exact I).
  all: first [apply make_stats_housekeeping | by apply Always_silent].
Qed.

(** The loading of the dataset opens and writes no file of its own and
    draws nothing; the copies that follow open the snapshot. *)
Lemma load_data_events E args st :
  Always (λ ev, no_render ev ∧ match ev with File_write _ _ => False | _ => True end)
    (load_data E args st).
Proof.
  unfold load_data. cbv zeta.
  apply Always_bind.
  - destruct (given_name _); repeat always_step ltac:(idtac; by split).
  - intros df _. repeat always_step ltac:(idtac; by split).
Qed.


Lemma files_written_bind_quiet {A B} (m : M A) (f : A → M B) :
  files_written m.1 = [] →
  files_written (m ≫= f).1 =
    match m.2 with inr a => files_written (f a).1 | inl _ => [] end.
Proof. intros H. rewrite bind_trace, files_written_app, H. by destruct m.2. Qed.




(** X9. [make_report] opens the file of the report only once its content
    is complete, hands it the whole text in one write, and returns its
    path, [<path>NanoPlot-report.html]. When it raises, the content could
    not be assembled and no file was opened, or the file could not be
    opened and nothing was written, or the file was opened, and so
    created, and the write failed. Without the key [filtered] it raises
    [KeyError]; with an empty list of statistics files it raises
    [IndexError] before rendering any table. *)
Theorem make_report_writes_last E plots st :
  opened (html_content E plots st).1 = [] ∧
  writes (html_content E plots st).1 = [] ∧
  match (make_report E plots st).2 with
  | inr p =>
      p = report_path st ∧
      ∃ lines,
        (html_content E plots st).2 = inr lines ∧
        file_open E p "w" = inr () ∧
        file_write E p (report_text E lines) = inr () ∧
        (make_report E plots st).1 =
          (html_content E plots st).1 ++
          [Called (File_open p "w"); File_write p (report_text E lines)]
  | inl e =>
      ((html_content E plots st).2 = inl e ∧
       (make_report E plots st).1 = (html_content E plots st).1) ∨
      ∃ lines msg,
        (html_content E plots st).2 = inr lines ∧ e = External msg ∧
        ((file_open E (report_path st) "w" = inl msg ∧
          (make_report E plots st).1 =
            (html_content E plots st).1 ++ [Called (File_open (report_path st) "w")]) ∨
         (file_open E (report_path st) "w" = inr () ∧
          file_write E (report_path st) (report_text E lines) = inl msg ∧
          (make_report E plots st).1 =
            (html_content E plots st).1 ++
            [Called (File_open (report_path st) "w");
             File_write (report_path st) (report_text E lines)]))
  end ∧
  (Settings.filtered st = None →
     (make_report E plots st).2 = inl (KeyError "filtered")) ∧
  (is_Some (Settings.filtered st) → Settings.statsfile st = [] →
     (make_report E plots st).2 = inl IndexError ∧
     stats2html_calls (make_report E plots st).1 = []).
Proof.
  pose proof (Always_weaken _ _ _ housekeeping_no_file
                (html_content_housekeeping E plots st)) as Hh.
  unfold Always in Hh.
  split; [by apply no_file_opened|]. split; [by apply no_file_writes|]. clear Hh.
  split; [|split].
  - unfold make_report. cbv zeta. fold (report_path st).
    rewrite bind_trace, bind_result.
    destruct (html_content E plots st) as [t [e|lines]]; cbn [fst snd].
    { left. by rewrite app_nil_r. }
    fold (report_text E lines).
    destruct (file_open E _ _) as [msg|[]] eqn:Hopen; cbn.
    { right. exists lines, msg. split; [done|]. split; [done|]. by left. }
    destruct (file_write E _ _) as [msg|[]] eqn:Hwrite; cbn.
    { right. exists lines, msg. split; [done|]. split; [done|]. by right. }
    split; [done|]. by exists lines.
  - intros Hf. unfold make_report, html_content. cbv zeta. by rewrite Hf.
  - intros [f Hf] Hs. unfold make_report, html_content. cbv zeta. rewrite Hf, Hs.
    by destruct f.
Qed.




(** ** The settings the barcode loop leaves behind *)

Lemma barcode_body_settings E df st b plots0 st0 v :
  same_base st st0 →
  contains df "barcode" = true →
  (barcode_body E df b (plots0, st0)).2 = inr v →
  same_base st v.2 ∧
  Settings.path v.2 = label_path st b ∧
  Settings.title v.2 =
    if decide (5 < label_rows df b) then Some (label_str b) else Settings.title st0.
Proof.
  intros Hbase Hc. unfold barcode_body. cbv zeta.
  destruct b as [| | |s|]; try done.
  cbn -[make_plots barcode_frame path_join].
  rewrite (barcode_frame_ok _ _ Hc), matching_frame_str.
  cbn -[make_plots path_join len label_frame].
  assert (path_join (Settings.outdir st0) (Settings.prefix st0 +:+ s +:+ "_")
          = label_path st (CStr s)) as Hp.
  { destruct Hbase as (Ha & _).
    unfold label_path, Settings.outdir, Settings.prefix. by rewrite Ha. }
  rewrite Hp. unfold label_rows.
  destruct (decide (5 < len (label_frame df (CStr s)))) as [Hn|Hn].
  - rewrite (bool_decide_eq_true_2 _ Hn).
    destruct (make_plots E _ _) as [t [e|new]] eqn:Hrun; [done|].
    cbn -[len label_frame]. intros [= <-]. cbn -[len label_frame].
    split; [by destruct st, st0|]. split; [done|].
    destruct (decide _) as [_|Hn']; [done|by destruct Hn'].
  - rewrite (bool_decide_eq_false_2 _ Hn).
    cbn -[len label_frame]. intros [= <-]. cbn -[len label_frame].
    split; [by destruct st, st0|]. split; [done|].
    destruct (decide _) as [Hn'|_]; [by destruct Hn|done].
Qed.

Lemma barcode_loop_settings E df st l plots0 st0 v :
  same_base st st0 →
  contains df "barcode" = true →
  (for_each l (barcode_body E df) (plots0, st0)).2 = inr v →
  same_base st v.2 ∧
  Settings.path v.2 =
    match last l with Some b => label_path st b | None => Settings.path st0 end ∧
  Settings.title v.2 =
    match last (filter (λ b, 5 < label_rows df b) l) with
    | Some b => Some (label_str b)
    | None => Settings.title st0
    end.
Proof.
  intros Hbase Hc. revert plots0 st0 Hbase. induction l as [|b l IH]; intros plots0 st0 Hbase.
  - cbn. by intros [= <-].
  - cbn [for_each]. intros H. apply bind_inv_ok in H as ([plots1 st1] & Hb & H & _).
    apply (barcode_body_settings E df st) in Hb as (Hbase1 & Hp & Ht); [|done..].
    cbn [fst snd] in *.
    destruct (IH _ _ Hbase1 H) as (Hb2 & -> & ->).
    split; [done|]. rewrite filter_cons, last_cons. split.
    + destruct (last l) as [c|]; [reflexivity|exact Hp].
    + rewrite Ht. destruct (decide (5 < label_rows df b)); [|done].
      rewrite last_cons. by destruct (last (filter _ l)).
Qed.

(** X11. The settings after the plotting stage. Without barcode mode they
    are the settings the stage was given. In barcode mode, when the stage
    returns, the path is the one of the last label of the dataset, whether
    it was plotted or skipped, the title is the one of the last label that
    was plotted, or the title given when none was, and nothing else has
    changed. *)
Theorem plot_stage_settings E df st v :
  (plot_stage E df st).2 = inr v →
  if Settings.barcoded st
  then same_base st v.2 ∧
       Settings.path v.2 = path_after st df ∧
       Settings.title v.2 = title_after st df
  else v.2 = st.
Proof.
  unfold plot_stage. destruct (Settings.barcoded st).
  - intros H. apply bind_inv_ok in H as (col & Hcol & H & _).
    apply getitem_inv in Hcol as [-> Hc].
    apply (barcode_loop_settings E df st) in H as (Hb & Hp & Ht); [|apply same_base_refl|done].
    unfold path_after, title_after, retained, labels in *.
    done.
  - intros H. apply bind_inv_ok in H as (plots & _ & H & _).
    cbn in H. by injection H as <-.
Qed.

Lemma plot_stage_settings_witness :
  ∃ v, (plot_stage (demo_env false) demo_frame (demo_settings true false)).2 = inr v ∧
       Settings.path v.2 = "out/run_BC01_" ∧ Settings.title v.2 = Some "BC02".
Proof.
  destruct (plot_stage (demo_env false) demo_frame (demo_settings true false)) as [t [e|v]] eqn:H.
  - exfalso. revert H. vm_compute. discriminate.
  - exists v. split; [done|].
    pose proof (plot_stage_settings (demo_env false) demo_frame (demo_settings true false) v) as P.
    rewrite H in P. destruct (P eq_refl) as (_ & -> & ->). by vm_compute.
Defined.

(** ** The report, when the tables can be rendered *)

Lemma html_content_eq E plots st f tables :
  Settings.filtered st = Some f →
  length tables = (if f then 2 else 1) →
  Forall2 (λ file table, stats2html E file = inr table)
          (take (if f then 2 else 1) (Settings.statsfile st)) tables →
  Forall (λ p, encode E p = inr ()) plots →
  html_content E plots st =
    (Logging_info "Writing html report." ::
       ((λ file, Called (Stats2html file)) <$> take (if f then 2 else 1) (Settings.statsfile st)) ++
       ((λ p, Called (Encode p)) <$> plots),
     inr (report_lines f tables plots)).
Proof.
  intros Hf Hlen Htab Henc. unfold html_content. cbv zeta. rewrite Hf.
  destruct f.
  - destruct (Settings.statsfile st) as [|f0 [|f1 l]]; cbn [take] in Htab.
    + apply Forall2_length in Htab. rewrite Hlen in Htab. done.
    + apply Forall2_length in Htab. rewrite Hlen in Htab. done.
    + apply Forall2_cons_inv_l in Htab as (t0 & tl & H0 & Htab & ->).
      apply Forall2_cons_inv_l in Htab as (t1 & tl' & H1 & Htab & ->).
      apply Forall2_nil_inv_l in Htab as ->.
      unfold index. cbn [lookup list_lookup]. cbn -[plot_lines]. rewrite H0.
      cbn -[plot_lines]. rewrite H1. cbn -[plot_lines].
      rewrite (plot_lines_eq _ _ _ Henc). cbn.
      unfold report_lines. cbn. by rewrite <-!app_assoc.
  - destruct (Settings.statsfile st) as [|f0 l]; cbn [take] in Htab.
    + apply Forall2_length in Htab. rewrite Hlen in Htab. done.
    + apply Forall2_cons_inv_l in Htab as (t0 & tl & H0 & Htab & ->).
      apply Forall2_nil_inv_l in Htab as ->.
      unfold index. cbn [lookup list_lookup]. cbn -[plot_lines]. rewrite H0.
      cbn -[plot_lines].
      rewrite (plot_lines_eq _ _ _ Henc). cbn.
      unfold report_lines. cbn. by rewrite <-!app_assoc.
Qed.

(** X12. [make_report] returns whenever the settings carry the key
    [filtered], the tables of the statistics files it reads can be
    rendered, every plot can be encoded, and the file of the report can be
    opened and written. It reads the first two statistics files when
    something was filtered and the first one otherwise; further files are
    never read. Its trace is then the log record, one call of [stats2html]
    per file read, one call of [encode] per plot, in order, the opening of
    the report and the write of its text. *)
Theorem make_report_returns E plots st f tables :
  Settings.filtered st = Some f →
  length tables = (if f then 2 else 1) →
  Forall2 (λ file table, stats2html E file = inr table)
          (take (if f then 2 else 1) (Settings.statsfile st)) tables →
  Forall (λ p, encode E p = inr ()) plots →
  file_open E (report_path st) "w" = inr () →
  file_write E (report_path st) (report_text E (report_lines f tables plots)) = inr () →
  make_report E plots st =
    (Logging_info "Writing html report." ::
       ((λ file, Called (Stats2html file)) <$> take (if f then 2 else 1) (Settings.statsfile st)) ++
       ((λ p, Called (Encode p)) <$> plots) ++
       [Called (File_open (report_path st) "w");
        File_write (report_path st) (report_text E (report_lines f tables plots))],
     inr (report_path st)).
Proof.
  intros Hf Hlen Htab Henc Hopen Hwrite. unfold make_report. cbv zeta.
  rewrite (html_content_eq E plots st f tables Hf Hlen Htab Henc).
  unfold report_path, report_text in *.
  rewrite (bind_ok _ _ (report_lines f tables plots)) by done. cbn [fst snd].
  rewrite Hopen. cbn -[report_lines]. rewrite Hwrite. cbn -[report_lines].
  by rewrite <-!app_assoc.
Qed.

Lemma make_report_returns_witness :
  (make_report (demo_env false) [Plot.mk "Read length" "out/run_len.png" "img"]
     (Settings.set_statsfile ["a.txt"; "b.txt"] (demo_settings false false))).2
  = inr "out/run_NanoPlot-report.html".
Proof.
  destruct (stats2html (demo_env false) "a.txt") as [|t0] eqn:H0; [by vm_compute in H0|].
  rewrite (make_report_returns (demo_env false) [Plot.mk "Read length" "out/run_len.png" "img"]
             (Settings.set_statsfile ["a.txt"; "b.txt"] (demo_settings false false))
             false [t0] eq_refl eq_refl).
  - reflexivity.
  - cbn [take]. constructor; [exact H0|constructor].
  - by repeat constructor.
  - reflexivity.
  - reflexivity.
Defined.

(** ** The paths of the labels *)

Lemma append_cancel_l (a x y : string) : a +:+ x = a +:+ y → x = y.
Proof. induction a as [|c a IH]; cbn; [done|]. intros [= H]. by apply IH. Qed.

Lemma append_cancel_r (x y : string) (c : ascii) :
  x +:+ String c EmptyString = y +:+ String c EmptyString → x = y.
Proof.
  revert y. induction x as [|a x IH]; intros [|b y]; cbn; try done.
  - intros [= _ H]. by destruct y.
  - intros [= _ H]. by destruct x.
  - intros [= -> H]. f_equal. by apply IH.
Qed.

Lemma startswith_sep_append (s t : string) :
  s ≠ EmptyString → startswith "/" (s +:+ t) = startswith "/" s.
Proof. destruct s as [|c s]; [done|]. by cbn. Qed.

Lemma label_path_inj st b1 b2 :
  Settings.prefix st ≠ EmptyString ∨
  (startswith "/" (label_str b1) = false ∧ startswith "/" (label_str b2) = false) →
  label_path st b1 = label_path st b2 → label_str b1 = label_str b2.
Proof.
  unfold label_path, path_join. generalize (Settings.outdir st). intros out.
  generalize (label_str b1) (label_str b2). intros s1 s2 Hs.
  assert (startswith "/" (Settings.prefix st +:+ s1 +:+ "_")
          = startswith "/" (Settings.prefix st +:+ s2 +:+ "_")) as Heq.
  { destruct (Settings.prefix st) as [|c p] eqn:Hp; [|done].
    destruct Hs as [Hs|[H1 H2]]; [done|].
    change (startswith "/" (s1 +:+ "_") = startswith "/" (s2 +:+ "_")).
    assert (∀ s, startswith "/" s = false → startswith "/" (s +:+ "_") = false) as Hx.
    { intros [|c s] H; [done|exact H]. }
    by rewrite !Hx. }
  rewrite <-Heq. clear Hs Heq.
  assert (∀ pre, pre +:+ (Settings.prefix st +:+ s1 +:+ "_")
                 = pre +:+ (Settings.prefix st +:+ s2 +:+ "_") → s1 = s2) as Hc.
  { intros pre H. apply append_cancel_l, append_cancel_l in H.
    by apply append_cancel_r in H. }
  destruct (startswith _ _).
  - apply (Hc EmptyString).
  - destruct (_ || _).
    + apply Hc.
    + intros H. apply append_cancel_l in H. by apply (Hc "/").
Qed.

(** X13. In barcode mode, when the plotting stage returns, the labels of
    the dataset are given pairwise distinct paths, so that the plots of one
    label never take the place of another's, as long as the prefix is not
    empty or no label starts with a slash. *)
Theorem label_paths_distinct E df st v :
  Settings.barcoded st = true →
  (plot_stage E df st).2 = inr v →
  Settings.prefix st ≠ EmptyString ∨
    Forall (λ b, startswith "/" (label_str b) = false) (labels df) →
  NoDup (label_path st <$> labels df).
Proof.
  intros Hb Hv Hs.
  apply plot_stage_barcoded_inv in Hv as (_ & Hstr & _); [|done].
  apply NoDup_fmap_2_strong; [|apply unique_NoDup].
  intros b1 b2 H1 H2 Hp.
  rewrite Forall_forall in Hstr.
  destruct (Hstr _ H1) as [s1 ->], (Hstr _ H2) as [s2 ->].
  f_equal. apply (label_path_inj st (CStr s1) (CStr s2)); [|done].
  destruct Hs as [Hs|Hs]; [by left|right].
  rewrite Forall_forall in Hs. split; by apply Hs.
Qed.

Lemma label_paths_distinct_witness :
  NoDup (label_path (demo_settings true false) <$> labels demo_frame).
Proof.
  destruct (plot_stage (demo_env false) demo_frame (demo_settings true false)) as [t [e|v]] eqn:H.
  - exfalso. revert H. vm_compute. discriminate.
  - apply (label_paths_distinct (demo_env false) demo_frame (demo_settings true false) v).
    + reflexivity.
    + by rewrite H.
    + left. by vm_compute.
Defined.

(** ** The plots of a run *)

Lemma housekeeping_calls t : Forall housekeeping t → calls t = [].
Proof.
  intros H. apply no_render_calls. eapply Forall_impl; [done|apply housekeeping_no_render].
Qed.

Lemma load_data_calls E args st : calls (load_data E args st).1 = [].
Proof.
  apply no_render_calls. eapply Forall_impl; [apply load_data_events|]. by intros ev [? _].
Qed.

Lemma calls_bind_quiet {A B} (m : M A) (f : A → M B) :
  calls m.1 = [] →
  calls (m ≫= f).1 = match m.2 with inr a => calls (f a).1 | inl _ => [] end.
Proof. intros H. rewrite bind_trace, calls_app, H. by destruct m.2. Qed.

Lemma make_report_calls E plots st : calls (make_report E plots st).1 = [].
Proof.
  apply no_render_calls. change (Always no_render (make_report E plots st)).
  unfold make_report. cbv zeta. apply Always_bind.
  - eapply Always_weaken; [apply housekeeping_no_render|apply html_content_housekeeping].
  - intros hc _. repeat always_step ltac:(idtac; exact I).
Qed.

(** X14. The plots of a run are those of the plotting stage, applied to
    the dataset and the settings the statistics stage hands over: a run
    that called nanoplotter has passed the check of the format, loaded its
    dataset and written and filtered its statistics, and neither the
    stages around the plotting nor the handler of a failure call it. *)
Theorem plots_follow_statistics E args :
  calls (main E args).1 ≠ [] →
  ∃ format df v,
    check_valid_format E (Args.format args) = inr format ∧
    (load_data E args (startup_settings args format)).2 = inr df ∧
    (stats_and_filter E df (startup_settings args format)).2 = inr v ∧
    calls (main E args).1 = calls (plot_stage E v.1 v.2).1.
Proof.
  assert (calls (main E args).1 = calls (run E args).1) as ->.
  { unfold main, try_except. destruct (run E args) as [t [e|[]]]; [|done].
    cbn [fst snd]. rewrite handler_eq, calls_app. cbn [fst].
    replace (calls (Logging_error e :: (Stdout_print <$> crash_message))) with (@nil Call)
      by reflexivity.
    by rewrite app_nil_r. }
  unfold run.
  rewrite calls_bind_quiet by (by rewrite extern_trace).
  destruct (extern _ (make_output_dir E _)).2 as [|[]]; [done|].
  rewrite calls_bind_quiet by (by rewrite extern_trace).
  destruct (extern _ (init_logs E _)).2 as [|[]]; [done|].
  rewrite calls_bind_quiet by (by rewrite extern_trace).
  destruct (extern _ (check_valid_format E _)).2 as [|format] eqn:Hfmt; [done|].
  apply extern_inv in Hfmt. cbv zeta. fold (startup_settings args format).
  rewrite calls_bind_quiet by apply load_data_calls.
  destruct (load_data E args (startup_settings args format)).2 as [|df] eqn:Hdf; [done|].
  rewrite calls_bind_quiet by apply housekeeping_calls, stats_and_filter_housekeeping.
  destruct (stats_and_filter E df (startup_settings args format)).2 as [|[df1 st1]] eqn:Hst;
    [done|].
  intros _. exists format, df, (df1, st1). split; [done|]. split; [done|]. split; [done|].
  rewrite bind_trace, calls_app. cbn [fst snd].
  destruct (plot_stage E df1 st1).2 as [|[plots st2]]; [by rewrite app_nil_r|].
  rewrite calls_bind_quiet by apply make_report_calls.
  destruct (make_report E plots st2).2; cbn; by rewrite app_nil_r.
Qed.

Lemma plots_follow_statistics_witness :
  ∃ format df v,
    check_valid_format (demo_env false) (Args.format (demo_args false)) = inr format ∧
    (load_data (demo_env false) (demo_args false)
       (startup_settings (demo_args false) format)).2 = inr df ∧
    (stats_and_filter (demo_env false) df (startup_settings (demo_args false) format)).2
      = inr v ∧
    calls (main (demo_env false) (demo_args false)).1
      = calls (plot_stage (demo_env false) v.1 v.2).1.
Proof.
  apply (plots_follow_statistics (demo_env false) (demo_args false)).
  vm_compute. discriminate.
Defined.

(** ** The paths of the calls *)

Lemma append_self (s t : string) : s = s +:+ t → t = EmptyString.
Proof. induction s as [|c s IH]; cbn; [done|]. intros [= H]. by apply IH. Qed.

Lemma family_path_inj st f1 f2 :
  family_path st f1 = family_path st f2 → f1 = f2 ∨ (bare f1 = true ∧ bare f2 = true).
Proof.
  destruct f1, f2; cbn [family_path bare]; intros H;
    first [ by left | by right
          | apply append_self in H; discriminate H
          | symmetry in H; apply append_self in H; discriminate H
          | apply append_cancel_l in H; discriminate H ].
Qed.

Ltac path_leaf :=
  idtac;
  lazymatch goal with
  | |- event_pathed _ (Called (Render ?c)) =>
      cbn [event_pathed]; unfold pathed;
      let f := eval vm_compute in (family_of c) in
      lazymatch f with
      | Some ?g => exists g; split; [vm_compute; reflexivity|by cbn]
      end
  | |- _ => exact I
  end.

Lemma make_plots_pathed E df st : Always (event_pathed st) (make_plots E df st).
Proof. unfold make_plots. cbv zeta. repeat always_step path_leaf. Qed.

Lemma omap_NoDup_inj {A B} (g : A → option B) (l : list A) x y v :
  NoDup (omap g l) → x ∈ l → y ∈ l → g x = Some v → g y = Some v → x = y.
Proof.
  induction l as [|a l IH]; intros Hnd Hx Hy Hgx Hgy; [by apply elem_of_nil in Hx|].
  cbn [omap list_omap] in Hnd.
  apply elem_of_cons in Hx as [->|Hx], Hy as [->|Hy]; [done| | |].
  - rewrite Hgx in Hnd. apply NoDup_cons in Hnd as [Hn _].
    destruct Hn. apply list_elem_of_omap. by exists y.
  - rewrite Hgy in Hnd. apply NoDup_cons in Hnd as [Hn _].
    destruct Hn. apply list_elem_of_omap. by exists x.
  - apply IH; try done. destruct (g a); [by apply NoDup_cons in Hnd as [_ ?]|done].
Qed.

Lemma family_of_bare c f :
  family_of c = Some f → bare f = true →
  (∃ a, c = Length_plots a) ∨ (∃ a, c = Time_plots a).
Proof.
  destruct c as [a|a|a|a]; cbn [family_of]; [by eauto| |by intros [= <-]|by eauto].
  cbv zeta. repeat case_bool_decide; by intros [= <-].
Qed.

(** X15. What [make_plots] tells each call about its output: every call is
    given the format of the settings and the path of its family, which is
    the path of the settings followed by the name of the plot, and the bare
    path of the settings for the length plots and the time plots. No family
    is called twice, so two different calls of one run are given the same
    path only when one is the call of the length plots and the other the
    call of the time plots. *)
Theorem make_plots_paths E df st :
  Forall (pathed st) (calls (make_plots E df st).1) ∧
  NoDup (families (make_plots E df st).1) ∧
  ∀ c1 c2,
    c1 ∈ calls (make_plots E df st).1 → c2 ∈ calls (make_plots E df st).1 →
    call_path c1 = call_path c2 →
    c1 = c2 ∨
    ((∃ a, c1 = Length_plots a) ∨ (∃ a, c1 = Time_plots a)) ∧
    ((∃ a, c2 = Length_plots a) ∨ (∃ a, c2 = Time_plots a)).
Proof.
  assert (Forall (pathed st) (calls (make_plots E df st).1)) as Hp.
  { eapply Always_calls; [|apply make_plots_pathed]. by intros c. }
  assert (NoDup (families (make_plots E df st).1)) as Hnd.
  { destruct (make_plots_Pre E df st) as [Hpre _].
    apply (sublist_NoDup _ (selected_families df)); [|by apply prefix_sublist].
    apply NoDup_filter. unfold family_order. by apply (bool_decide_unpack _). }
  split; [done|]. split; [done|].
  intros c1 c2 H1 H2 Heq. rewrite Forall_forall in Hp.
  destruct (Hp _ H1) as (f1 & Hf1 & Hp1 & _), (Hp _ H2) as (f2 & Hf2 & Hp2 & _).
  rewrite Hp1, Hp2 in Heq. apply family_path_inj in Heq as [<-|[Hb1 Hb2]].
  - left. by apply (omap_NoDup_inj family_of _ c1 c2 f1 Hnd).
  - right. split; by eapply family_of_bare.
Qed.
